(** * MCP Weather Server: a shallow embedding of [weather.py]

    The module has four layers: a call context of three context variables,
    a JSON log formatter, the instrumented fetcher [make_nws_request] and the
    two tool operations [get_alerts] and [get_forecast].  Python values are
    embedded as the inductive [value]; code that may raise returns an
    [outcome]; code that logs, reads the clock, draws identifiers or talks to
    the network runs in the state-and-exception monad [M]. *)

From Stdlib Require Import ZArith List String Ascii Bool Lia.
From Stdlib Require Import DecimalString DecimalPos DecimalN DecimalZ
  DecimalFacts SpecFloat.
Import ListNotations.

Open Scope string_scope.
Open Scope Z_scope.

(** ** Python values

    The values [json.loads] / [response.json()] can produce, which are also
    the values the operations inspect.  Text is a [string] of 8-bit
    characters, each standing for the code point of the same number; a
    dictionary is an association list in insertion order, read by first
    match. *)

Set Warnings "-register-all".

Inductive value : Type :=
| VNone
| VBool (b : bool)
| VInt (n : Z)
| VFloat (f : spec_float)
| VStr (s : string)
| VList (l : list value)
| VDict (d : list (string * value)).

(** ** Exceptions

    Only the distinctions the [except] clauses of the module make are kept:
    [httpx.HTTPStatusError] (with [e.response.status_code]),
    [httpx.TimeoutException], the three built-in errors that subscripting and
    attribute access raise, and any other subclass of [Exception].  Signals
    that derive from [BaseException] only (task cancellation, interpreter
    exit) are not failures of a fetch and are outside the model, as they are
    outside every [except Exception] clause. *)

Inductive exn_class : Type :=
| HTTPStatusError (status_code : Z)
| TimeoutException
| KeyError
| TypeError
| AttributeError
| OtherException (cls : string).

Record exn : Type := mkExn
  { exn_class_of : exn_class;
    exn_str : string (* str(e) *) }.

Inductive outcome (A : Type) : Type :=
| Ret (a : A)
| Raise (e : exn).
Arguments Ret {A} a.
Arguments Raise {A} e.

Definition obind {A B} (o : outcome A) (k : A -> outcome B) : outcome B :=
  match o with
  | Ret a => k a
  | Raise e => Raise e
  end.

Fixpoint omap {A B} (f : A -> outcome B) (l : list A) : outcome (list B) :=
  match l with
  | [] => Ret []
  | x :: xs =>
      obind (f x) (fun y => obind (omap f xs) (fun ys => Ret (y :: ys)))
  end.

(** ** Log records

    The attributes of [logging.LogRecord] that the formatters read.  Every
    [extra=] dictionary in the module maps names to strings, and the logging
    library stores each entry as an attribute of the record: [extra] holds
    them.  [logging.logProcesses] and [logging.logThreads] keep their
    defaults, so [process] and [threadName] are filled in. *)

Record LogRecord : Type := mkLogRecord
  { levelname : string;
    levelno : Z;
    name : string;
    message : string;              (* record.getMessage() *)
    filename : string;
    lineno : Z;
    funcName : string;
    process : Z;
    threadName : string;
    created : Z;
    exc_info : option exn;
    extra : list (string * string) }.

(** ** What the interpreter and the libraries supply

    Renderings that CPython, [traceback], [datetime] and [logging] compute
    and the module only passes along. *)

Class Runtime : Type :=
  { float_str : spec_float -> string;        (* str(x) and repr(x), x a float *)
    float_of_literal : string -> spec_float; (* float(s), s a JSON number *)
    str_repr : string -> string;             (* repr(s), s a str *)
    seconds_6f : Z -> string;                (* f"{td.total_seconds():.6f}",
                                                td given in microseconds *)
    isoformat : Z -> string;                 (* datetime.isoformat() *)
    format_exception : exn -> string;        (* the joined lines of
                                                traceback.format_exception *)
    plain_format : LogRecord -> string       (* logging.Formatter with the
                                                development format string *) }.

Definition nl : string := String "010"%char EmptyString.

Definition str_int (n : Z) : string := NilZero.string_of_int (Z.to_int n).

Fixpoint lookup {A} (k : string) (d : list (string * A)) : option A :=
  match d with
  | [] => None
  | (k', v) :: d' => if String.eqb k k' then Some v else lookup k d'
  end.

(** [d[k] = v] on a dictionary: overwrite in place, or append. *)
Fixpoint dict_set {A} (k : string) (v : A) (d : list (string * A))
  : list (string * A) :=
  match d with
  | [] => [(k, v)]
  | (k', v') :: d' =>
      if String.eqb k k' then (k', v) :: d' else (k', v') :: dict_set k v d'
  end.

Section Python.
Context {rt : Runtime}.

(** [repr(v)] and [str(v)]. *)
Fixpoint py_repr (v : value) : string :=
  match v with
  | VNone => "None"
  | VBool true => "True"
  | VBool false => "False"
  | VInt n => str_int n
  | VFloat f => float_str f
  | VStr s => str_repr s
  | VList l => "[" ++ String.concat ", " (map py_repr l) ++ "]"
  | VDict d =>
      "{" ++ String.concat ", "
               (map (fun kv => match kv with
                               | (k, x) => str_repr k ++ ": " ++ py_repr x
                               end) d) ++ "}"
  end.

Definition py_str (v : value) : string :=
  match v with
  | VStr s => s
  | _ => py_repr v
  end.

(** [bool(v)]: the test behind [not v] and [if v]. *)
Definition truthy (v : value) : bool :=
  match v with
  | VNone => false
  | VBool b => b
  | VInt n => negb (n =? 0)
  | VFloat (S754_zero _) => false
  | VFloat _ => true
  | VStr s => negb (String.eqb s EmptyString)
  | VList l => match l with [] => false | _ => true end
  | VDict d => match d with [] => false | _ => true end
  end.

Definition type_name (v : value) : string :=
  match v with
  | VNone => "NoneType"
  | VBool _ => "bool"
  | VInt _ => "int"
  | VFloat _ => "float"
  | VStr _ => "str"
  | VList _ => "list"
  | VDict _ => "dict"
  end.

Definition type_error (msg : string) : exn := mkExn TypeError msg.

(** [key in v] for a string [key]. *)
Definition contains (key : string) (v : value) : outcome bool :=
  match v with
  | VDict d => Ret (match lookup key d with Some _ => true | None => false end)
  | VList l =>
      Ret (existsb (fun x => match x with
                             | VStr s => String.eqb s key
                             | _ => false
                             end) l)
  | VStr s => Ret (match index 0 key s with Some _ => true | None => false end)
  | _ => Raise (type_error ("argument of type '" ++ type_name v
                            ++ "' is not iterable"))
  end.

(** [v[key]] for a string [key]. *)
Definition getitem (v : value) (key : string) : outcome value :=
  match v with
  | VDict d =>
      match lookup key d with
      | Some x => Ret x
      | None => Raise (mkExn KeyError (str_repr key))
      end
  | VList _ =>
      Raise (type_error "list indices must be integers or slices, not str")
  | VStr _ => Raise (type_error "string indices must be integers, not 'str'")
  | _ => Raise (type_error ("'" ++ type_name v
                            ++ "' object is not subscriptable"))
  end.

(** [v.get(key, default)]: only dictionaries have the method. *)
Definition dict_get (v : value) (key : string) (default : value)
  : outcome value :=
  match v with
  | VDict d =>
      Ret (match lookup key d with Some x => x | None => default end)
  | _ => Raise (mkExn AttributeError
                  ("'" ++ type_name v ++ "' object has no attribute 'get'"))
  end.

Fixpoint chars (s : string) : list value :=
  match s with
  | EmptyString => []
  | String c s' => VStr (String c EmptyString) :: chars s'
  end.

(** The items [for x in v] visits. *)
Definition iterate (v : value) : outcome (list value) :=
  match v with
  | VList l => Ret l
  | VDict d => Ret (map (fun kv => VStr (fst kv)) d)
  | VStr s => Ret (chars s)
  | _ => Raise (type_error ("'" ++ type_name v ++ "' object is not iterable"))
  end.

(** [v[:n]]. *)
Definition slice_to (n : nat) (v : value) : outcome value :=
  match v with
  | VList l => Ret (VList (firstn n l))
  | VStr s => Ret (VStr (substring 0 n s))
  | VDict _ => Raise (type_error "unhashable type: 'slice'")
  | _ => Raise (type_error ("'" ++ type_name v
                            ++ "' object is not subscriptable"))
  end.

End Python.

(** ** [json.dumps]

    The encoder with its default settings: [", "] and [": "] separators and
    [ensure_ascii], so every character outside the printable ASCII range,
    the quote and the backslash leave as an escape. *)

Definition dquote : string := String "034"%char EmptyString.

Definition hex_digit (n : nat) : ascii :=
  match n with
  | 0%nat => "0" | 1%nat => "1" | 2%nat => "2" | 3%nat => "3"
  | 4%nat => "4" | 5%nat => "5" | 6%nat => "6" | 7%nat => "7"
  | 8%nat => "8" | 9%nat => "9" | 10%nat => "a" | 11%nat => "b"
  | 12%nat => "c" | 13%nat => "d" | 14%nat => "e" | _ => "f"
  end%char.

Definition escape_char (c : ascii) : string :=
  let n := nat_of_ascii c in
  if Ascii.eqb c "034" then "\" ++ dquote
  else if Ascii.eqb c "\" then "\\"
  else if Ascii.eqb c "010" then "\n"
  else if Ascii.eqb c "013" then "\r"
  else if Ascii.eqb c "009" then "\t"
  else if Ascii.eqb c "008" then "\b"
  else if Ascii.eqb c "012" then "\f"
  else if ((32 <=? n) && (n <=? 126))%nat then String c EmptyString
  else "\u00" ++ String (hex_digit (n / 16)) (String (hex_digit (n mod 16))
                                                EmptyString).

Fixpoint escape (s : string) : string :=
  match s with
  | EmptyString => EmptyString
  | String c s' => escape_char c ++ escape s'
  end.

Definition json_string (s : string) : string := dquote ++ escape s ++ dquote.

Section Encoder.
Context {rt : Runtime}.

Definition json_float (f : spec_float) : string :=
  match f with
  | S754_nan => "NaN"
  | S754_infinity false => "Infinity"
  | S754_infinity true => "-Infinity"
  | _ => float_str f
  end.

Fixpoint json_dumps (v : value) : string :=
  match v with
  | VNone => "null"
  | VBool true => "true"
  | VBool false => "false"
  | VInt n => str_int n
  | VFloat f => json_float f
  | VStr s => json_string s
  | VList l => "[" ++ String.concat ", " (map json_dumps l) ++ "]"
  | VDict d =>
      "{" ++ String.concat ", "
               (map (fun kv => match kv with
                               | (k, x) => json_string k ++ ": " ++ json_dumps x
                               end) d) ++ "}"
  end.

End Encoder.

(** ** The world outside the module

    Environment variables, the identifiers [uuid.uuid4()] hands out, the
    clock, the process, and the upstream service.  [http_get n url] is what
    the [n]-th GET of the run meets when it asks for [url]: the client raises,
    or a response arrives whose [.json()] decodes or raises. *)

Record Response : Type := mkResponse
  { status_code : Z;
    status_error : string;       (* str() of what raise_for_status raises *)
    json : outcome value         (* response.json() *) }.

Record World : Type := mkWorld
  { getenv : string -> option string;
    uuid4 : nat -> string;
    clock : nat -> Z;                        (* microseconds *)
    http_get : nat -> string -> outcome Response;
    default_correlation_id : string;         (* drawn when the module loads *)
    default_request_id : string;
    pid : Z;
    thread_name : string;
    root_level : Z                           (* level of the root logger *) }.

Definition getenv_default (w : World) (key default : string) : string :=
  match getenv w key with
  | Some s => s
  | None => default
  end.

(** ** Call context: the three [ContextVar]s, [None] while unset. *)

Record Context : Type := mkContext
  { correlation_id : option string;
    request_id : option string;
    user_id : option string }.

Definition get_correlation_id (w : World) (c : Context) : string :=
  match correlation_id c with
  | Some s => s
  | None => default_correlation_id w
  end.

Definition get_request_id (w : World) (c : Context) : string :=
  match request_id c with
  | Some s => s
  | None => default_request_id w
  end.

Definition get_user_id (c : Context) : string :=
  match user_id c with
  | Some s => s
  | None => "unknown"
  end.

(** ** [JSONFormatter.format] *)

Section Formatter.
Context {rt : Runtime}.
Variable w : World.

Definition log_record (c : Context) (now : Z) (record : LogRecord)
  : list (string * value) :=
  let base :=
    [ ("timestamp", VStr (isoformat now));
      ("level", VStr (levelname record));
      ("logger", VStr (name record));
      ("message", VStr (message record));
      ("correlation_id", VStr (get_correlation_id w c));
      ("request_id", VStr (get_request_id w c));
      ("user_id", VStr (get_user_id c));
      ("file", VStr (filename record ++ ":" ++ str_int (lineno record)));
      ("function", VStr (funcName record));
      ("process", VInt (process record));
      ("thread", VStr (threadName record));
      ("environment", VStr (getenv_default w "ENV" "development"));
      ("app_version", VStr (getenv_default w "APP_VERSION" "0.1.0"));
      ("host", VStr (getenv_default w "HOSTNAME" "localhost"));
      ("duration", VStr (match lookup "duration" (extra record) with
                         | Some d => d
                         | None => "0.0s"
                         end)) ] in
  match exc_info record with
  | Some e => dict_set "error_details" (VStr (format_exception e)) base
  | None =>
      match lookup "error_details" (extra record) with
      | Some d => dict_set "error_details" (VStr d) base
      | None => base
      end
  end.

Definition JSONFormatter_format (c : Context) (now : Z) (record : LogRecord)
  : string :=
  json_dumps (VDict (log_record c now record)).

End Formatter.

(** ** State and the monad of the module's functions

    [requests] lists the URLs sent upstream and [emitted] the records the
    handler wrote, each with the line it produced, oldest first. *)

Record State : Type := mkState
  { context : Context;
    uuids_drawn : nat;
    clock_reads : nat;
    requests : list string;
    emitted : list (LogRecord * string) }.

Definition initial_state : State :=
  mkState (mkContext None None None) 0 0 [] [].

Definition M (A : Type) : Type := State -> outcome A * State.

Definition ret {A} (a : A) : M A := fun st => (Ret a, st).

Definition raise {A} (e : exn) : M A := fun st => (Raise e, st).

Definition bind {A B} (m : M A) (k : A -> M B) : M B :=
  fun st =>
    match m st with
    | (Ret a, st') => k a st'
    | (Raise e, st') => (Raise e, st')
    end.

Definition lift {A} (o : outcome A) : M A := fun st => (o, st).

(** [try: body  except ...: handler e]: the handler sees the state the body
    left behind. *)
Definition try_except {A} (body : M A) (handler : exn -> M A) : M A :=
  fun st =>
    match body st with
    | (Ret a, st') => (Ret a, st')
    | (Raise e, st') => handler e st'
    end.

Declare Scope monad_scope.
Delimit Scope monad_scope with monad.
Notation "x <- m ;; k" := (bind m (fun x => k))
  (at level 61, m at next level, right associativity) : monad_scope.
Notation "m ;; k" := (bind m (fun _ => k))
  (at level 61, right associativity) : monad_scope.
Open Scope monad_scope.

Definition returned {A} (r : outcome A * State) : outcome A := fst r.
Definition final {A} (r : outcome A * State) : State := snd r.

(** ** The logger "WeatherService" and its console handler *)

Definition DEBUG : Z := 10.
Definition INFO : Z := 20.
Definition WARNING : Z := 30.
Definition ERROR : Z := 40.
Definition CRITICAL : Z := 50.

(** [logging._nameToLevel]: the names [Logger.setLevel] accepts. *)
Definition level_of_name (s : string) : option Z :=
  if String.eqb s "CRITICAL" then Some CRITICAL
  else if String.eqb s "FATAL" then Some CRITICAL
  else if String.eqb s "ERROR" then Some ERROR
  else if String.eqb s "WARN" then Some WARNING
  else if String.eqb s "WARNING" then Some WARNING
  else if String.eqb s "INFO" then Some INFO
  else if String.eqb s "DEBUG" then Some DEBUG
  else if String.eqb s "NOTSET" then Some 0
  else None.

Section Server.
Context {rt : Runtime}.
Variable w : World.

(** [logger.setLevel(os.getenv("LOG_LEVEL", "INFO"))].  Another name makes
    [setLevel] raise while the module loads, and no server runs. *)
Definition logger_level : option Z :=
  level_of_name (getenv_default w "LOG_LEVEL" "INFO").

(** [Logger.getEffectiveLevel]: level 0 defers to the root logger. *)
Definition effective_level : option Z :=
  match logger_level with
  | Some 0 => Some (root_level w)
  | other => other
  end.

Definition isEnabledFor (level : Z) : bool :=
  match effective_level with
  | Some t => t <=? level
  | None => false
  end.

(** [os.getenv("ENV") == "production"] chose the handler's formatter. *)
Definition production : bool :=
  match getenv w "ENV" with
  | Some s => String.eqb s "production"
  | None => false
  end.

(** One call of a logging method at line [line] of function [func]: below
    the threshold nothing happens; otherwise a record is made, formatted
    and written.  The JSON formatter reads the clock once more. *)
Definition write_record (level : Z) (lname msg : string) (exc : option exn)
    (extras : list (string * string)) (func : string) (line : Z)
    (st : State) : State :=
  if isEnabledFor level then
    let n := clock_reads st in
    let record :=
      mkLogRecord lname level "WeatherService" msg "weather.py" line func
        (pid w) (thread_name w) (clock w n) exc extras in
    if production then
      mkState (context st) (uuids_drawn st) (S (S n)) (requests st)
        (emitted st ++
           [(record,
             JSONFormatter_format w (context st) (clock w (S n)) record)])
    else
      mkState (context st) (uuids_drawn st) (S n) (requests st)
        (emitted st ++ [(record, plain_format record)])
  else st.

(** The logging methods return [None]; a failure inside the handler is
    dealt with by the logging library and never reaches the caller. *)
Definition log (level : Z) (lname msg : string) (exc : option exn)
    (extras : list (string * string)) (func : string) (line : Z) : M unit :=
  fun st => (Ret tt, write_record level lname msg exc extras func line st).

Definition logger_debug msg extras func line : M unit :=
  log DEBUG "DEBUG" msg None extras func line.
Definition logger_info msg extras func line : M unit :=
  log INFO "INFO" msg None extras func line.
Definition logger_warning msg extras func line : M unit :=
  log WARNING "WARNING" msg None extras func line.
(** [logger.error(..., exc_info=True)] and [logger.exception(...)] inside a
    handler for [e]. *)
Definition logger_error msg (e : exn) extras func line : M unit :=
  log ERROR "ERROR" msg (Some e) extras func line.
Definition logger_exception msg (e : exn) extras func line : M unit :=
  log ERROR "ERROR" msg (Some e) extras func line.

(** ** Primitive effects *)

(** [str(uuid.uuid4())] *)
Definition new_uuid : M string :=
  fun st =>
    (Ret (uuid4 w (uuids_drawn st)),
     mkState (context st) (S (uuids_drawn st)) (clock_reads st)
       (requests st) (emitted st)).

(** [datetime.datetime.now()] *)
Definition now : M Z :=
  fun st =>
    (Ret (clock w (clock_reads st)),
     mkState (context st) (uuids_drawn st) (S (clock_reads st))
       (requests st) (emitted st)).

Definition set_correlation_id (v : string) : M unit :=
  fun st =>
    (Ret tt,
     mkState (mkContext (Some v) (request_id (context st))
                (user_id (context st)))
       (uuids_drawn st) (clock_reads st) (requests st) (emitted st)).

Definition set_request_id (v : string) : M unit :=
  fun st =>
    (Ret tt,
     mkState (mkContext (correlation_id (context st)) (Some v)
                (user_id (context st)))
       (uuids_drawn st) (clock_reads st) (requests st) (emitted st)).

(** [await client.get(url, headers=headers)]: a URL that is not a string is
    refused by the client before anything is sent. *)
Definition client_get (url : value) : M Response :=
  match url with
  | VStr u =>
      fun st =>
        (http_get w (List.length (requests st)) u,
         mkState (context st) (uuids_drawn st) (clock_reads st)
           (requests st ++ [u]) (emitted st))
  | _ =>
      raise (type_error ("Invalid type for url.  Expected str or httpx.URL, got <class '"
                         ++ type_name url ++ "'>: " ++ py_repr url))
  end.

(** [response.is_success] and [response.raise_for_status()] *)
Definition is_success (r : Response) : bool :=
  (200 <=? status_code r) && (status_code r <=? 299).

Definition raise_for_status (r : Response) : M unit :=
  if is_success r then ret tt
  else raise (mkExn (HTTPStatusError (status_code r)) (status_error r)).

(** [f"{duration.total_seconds():.6f}s"] with
    [duration = datetime.datetime.now() - start_time] *)
Definition elapsed (start_time : Z) : M string :=
  t <- now ;; ret (seconds_6f (t - start_time) ++ "s").

End Server.

(** ** The instrumented fetcher and the two operations *)

Definition NWS_API_BASE : string := "https://api.weather.gov".
Definition USER_AGENT : string := "weather-app/1.0".

Definition separator : string := nl ++ "---" ++ nl.

Definition degree : string :=
  String "194"%char (String "176"%char EmptyString).

Section Operations.
Context {rt : Runtime}.
Variable w : World.

Definition make_nws_request (url : value) : M value :=
  req_id <- new_uuid w ;;
  set_request_id req_id ;;
  start_time <- now w ;;
  try_except
    (logger_debug w ("Making request to: " ++ py_str url)
       [("request_id", req_id)] "make_nws_request" 83 ;;
     response <- client_get w url ;;
     raise_for_status response ;;
     duration <- elapsed w start_time ;;
     logger_info w
       ("Request to " ++ py_str url ++ " successful. Status code: "
        ++ str_int (status_code response))
       [("duration", duration); ("request_id", req_id)]
       "make_nws_request" 88 ;;
     lift (json response))
    (fun e =>
       match exn_class_of e with
       | HTTPStatusError code =>
           duration <- elapsed w start_time ;;
           logger_error w ("HTTP error occurred: " ++ exn_str e) e
             [("error_code", str_int code); ("duration", duration);
              ("request_id", req_id)]
             "make_nws_request" 93 ;;
           ret VNone
       | TimeoutException =>
           duration <- elapsed w start_time ;;
           logger_error w ("Timeout error occurred: " ++ exn_str e) e
             [("duration", duration); ("request_id", req_id)]
             "make_nws_request" 98 ;;
           ret VNone
       | _ =>
           duration <- elapsed w start_time ;;
           logger_exception w ("An unexpected error occurred: " ++ exn_str e) e
             [("duration", duration); ("request_id", req_id)]
             "make_nws_request" 103 ;;
           ret VNone
       end).

Definition format_alert (feature : value) : outcome string :=
  obind (getitem feature "properties") (fun props =>
  obind (dict_get props "event" (VStr "Unknown")) (fun event =>
  obind (dict_get props "areaDesc" (VStr "Unknown")) (fun area =>
  obind (dict_get props "severity" (VStr "Unknown")) (fun severity =>
  obind (dict_get props "description" (VStr "No description available"))
    (fun description =>
  obind (dict_get props "instruction"
           (VStr "No specific instructions provided")) (fun instruction =>
  Ret (nl ++ "Event: " ++ py_str event ++ nl
       ++ "Area: " ++ py_str area ++ nl
       ++ "Severity: " ++ py_str severity ++ nl
       ++ "Description: " ++ py_str description ++ nl
       ++ "Instructions: " ++ py_str instruction ++ nl))))))).

Definition get_alerts (state : string) : M string :=
  start_time <- now w ;;
  corr_id <- new_uuid w ;;
  set_correlation_id corr_id ;;
  try_except
    (logger_info w ("Getting alerts for state: " ++ state)
       [("correlation_id", corr_id)] "get_alerts" 130 ;;
     data <- make_nws_request
               (VStr (NWS_API_BASE ++ "/alerts/active/area/" ++ state)) ;;
     unusable <- (if negb (truthy data) then ret true
                  else present <- lift (contains "features" data) ;;
                       ret (negb present)) ;;
     if unusable : bool then
       logger_warning w
         ("No data or 'features' key found for state: " ++ state)
         [("correlation_id", corr_id)] "get_alerts" 135 ;;
       ret "Unable to fetch alerts or no alerts found."
     else
       features <- lift (getitem data "features") ;;
       if negb (truthy features) then
         logger_info w ("No active alerts found for state: " ++ state)
           [("correlation_id", corr_id)] "get_alerts" 139 ;;
         ret "No active alerts for this state."
       else
         features <- lift (getitem data "features") ;;
         items <- lift (iterate features) ;;
         alerts <- lift (omap format_alert items) ;;
         duration <- elapsed w start_time ;;
         logger_info w
           ("Successfully fetched and formatted alerts for state: " ++ state)
           [("duration", duration); ("correlation_id", corr_id)]
           "get_alerts" 144 ;;
         ret (String.concat separator alerts))
    (fun e =>
       duration <- elapsed w start_time ;;
       logger_exception w ("Error getting alerts for state: " ++ state) e
         [("duration", duration); ("correlation_id", corr_id)]
         "get_alerts" 149 ;;
       ret "An error occurred while fetching alerts.").

(** The body of the loop over [periods[:5]] in [get_forecast]. *)
Definition format_period (period : value) : outcome string :=
  obind (getitem period "name") (fun pname =>
  obind (getitem period "temperature") (fun temperature =>
  obind (getitem period "temperatureUnit") (fun unit =>
  obind (getitem period "windSpeed") (fun speed =>
  obind (getitem period "windDirection") (fun direction =>
  obind (getitem period "detailedForecast") (fun detailed =>
  Ret (nl ++ py_str pname ++ ":" ++ nl
       ++ "Temperature: " ++ py_str temperature ++ degree ++ py_str unit ++ nl
       ++ "Wind: " ++ py_str speed ++ " " ++ py_str direction ++ nl
       ++ "Forecast: " ++ py_str detailed ++ nl))))))).

Definition get_forecast (latitude longitude : spec_float) : M string :=
  let place := "latitude: " ++ float_str latitude ++ ", longitude: "
               ++ float_str longitude in
  start_time <- now w ;;
  corr_id <- new_uuid w ;;
  set_correlation_id corr_id ;;
  try_except
    (logger_info w ("Getting forecast for " ++ place)
       [("correlation_id", corr_id)] "get_forecast" 165 ;;
     data <- make_nws_request
               (VStr (NWS_API_BASE ++ "/points/" ++ float_str latitude ++ ","
                      ++ float_str longitude)) ;;
     if negb (truthy data) then
       logger_warning w ("Unable to fetch forecast data for " ++ place)
         [("correlation_id", corr_id)] "get_forecast" 171 ;;
       ret "Unable to fetch forecast data for this location."
     else
       properties <- lift (getitem data "properties") ;;
       forecast_url <- lift (getitem properties "forecast") ;;
       forecast_data <- make_nws_request forecast_url ;;
       if negb (truthy forecast_data) then
         logger_warning w ("Unable to fetch detailed forecast for " ++ place)
           [("correlation_id", corr_id)] "get_forecast" 179 ;;
         ret "Unable to fetch detailed forecast."
       else
         properties <- lift (getitem forecast_data "properties") ;;
         periods <- lift (getitem properties "periods") ;;
         shown <- lift (slice_to 5 periods) ;;
         items <- lift (iterate shown) ;;
         forecasts <- lift (omap format_period items) ;;
         duration <- elapsed w start_time ;;
         logger_info w
           ("Successfully fetched and formatted forecast for " ++ place)
           [("duration", duration); ("correlation_id", corr_id)]
           "get_forecast" 194 ;;
         ret (String.concat separator forecasts))
    (fun e =>
       duration <- elapsed w start_time ;;
       logger_exception w ("Error getting forecast for " ++ place) e
         [("duration", duration); ("correlation_id", corr_id)]
         "get_forecast" 199 ;;
       ret "An error occurred while fetching forecast.").

End Operations.

(** ** [json.loads]

    The decoder that reads a rendered record back.  Strings are scanned
    structurally; containers recurse on [fuel], of which the length of the
    document is always enough.  An escape that names a code point above 255
    has no counterpart in the 8-bit text of the embedding and is refused. *)

Definition is_ws (c : ascii) : bool :=
  Ascii.eqb c " " || Ascii.eqb c "009" || Ascii.eqb c "010"
  || Ascii.eqb c "013".

Fixpoint skip_ws (s : string) : string :=
  match s with
  | String c r => if is_ws c then skip_ws r else s
  | EmptyString => s
  end.

Definition is_digit (c : ascii) : bool :=
  let n := nat_of_ascii c in ((48 <=? n) && (n <=? 57))%nat.

Definition hex_value (c : ascii) : option nat :=
  let n := nat_of_ascii c in
  if ((48 <=? n) && (n <=? 57))%nat then Some (n - 48)%nat
  else if ((97 <=? n) && (n <=? 102))%nat then Some (n - 87)%nat
  else if ((65 <=? n) && (n <=? 70))%nat then Some (n - 55)%nat
  else None.

Definition unescape (c : ascii) : option ascii :=
  if Ascii.eqb c "034" then Some "034"%char
  else if Ascii.eqb c "\" then Some "\"%char
  else if Ascii.eqb c "/" then Some "/"%char
  else if Ascii.eqb c "b" then Some "008"%char
  else if Ascii.eqb c "f" then Some "012"%char
  else if Ascii.eqb c "n" then Some "010"%char
  else if Ascii.eqb c "r" then Some "013"%char
  else if Ascii.eqb c "t" then Some "009"%char
  else None.

Definition hex4 (a b c d : ascii) : option nat :=
  match hex_value a, hex_value b, hex_value c, hex_value d with
  | Some x, Some y, Some z, Some t =>
      Some (((x * 16 + y) * 16 + z) * 16 + t)%nat
  | _, _, _, _ => None
  end.

Definition prepend (c : ascii) (r : option (string * string))
  : option (string * string) :=
  match r with
  | Some (s, rest) => Some (String c s, rest)
  | None => None
  end.

(** The text of a string literal, read from just after its opening quote,
    and what follows its closing quote. *)
Fixpoint scan_string (s : string) : option (string * string) :=
  match s with
  | EmptyString => None
  | String c r =>
      if Ascii.eqb c "034" then Some (EmptyString, r)
      else if Ascii.eqb c "\" then
        match r with
        | String e r1 =>
            match unescape e with
            | Some x => prepend x (scan_string r1)
            | None =>
                if Ascii.eqb e "u" then
                  match r1 with
                  | String h1 (String h2 (String h3 (String h4 r2))) =>
                      match hex4 h1 h2 h3 h4 with
                      | Some n =>
                          if (n <? 256)%nat
                          then prepend (ascii_of_nat n) (scan_string r2)
                          else None
                      | None => None
                      end
                  | _ => None
                  end
                else None
            end
        | EmptyString => None
        end
      else if (nat_of_ascii c <? 32)%nat then None
      else prepend c (scan_string r)
  end.

Fixpoint span_digits (s : string) : string * string :=
  match s with
  | String c r =>
      if is_digit c
      then let (d, rest) := span_digits r in (String c d, rest)
      else (EmptyString, s)
  | EmptyString => (EmptyString, EmptyString)
  end.

(** The integer part of a number: an optional minus sign, then a single
    zero or a run of digits that starts with a non-zero one. *)
Definition scan_integer (s : string) : option (string * string) :=
  let (sign, s1) := match s with
                    | String "-" r => ("-", r)
                    | _ => (EmptyString, s)
                    end in
  match s1 with
  | String "0" r => Some (sign ++ "0", r)
  | _ =>
      match span_digits s1 with
      | (EmptyString, _) => None
      | (d, rest) => Some (sign ++ d, rest)
      end
  end.

(** The optional fraction: a point and at least one digit. *)
Definition scan_fraction (s : string) : string * string :=
  match s with
  | String "." r =>
      match span_digits r with
      | (EmptyString, _) => (EmptyString, s)
      | (d, rest) => (String "." d, rest)
      end
  | _ => (EmptyString, s)
  end.

(** The optional exponent: e or E, an optional sign, at least one digit. *)
Definition scan_exponent (s : string) : string * string :=
  match s with
  | String e r =>
      if Ascii.eqb e "e" || Ascii.eqb e "E" then
        let (sign, r1) := match r with
                          | String "-" t => ("-", t)
                          | String "+" t => ("+", t)
                          | _ => (EmptyString, r)
                          end in
        match span_digits r1 with
        | (EmptyString, _) => (EmptyString, s)
        | (d, rest) => (String e (sign ++ d), rest)
        end
      else (EmptyString, s)
  | EmptyString => (EmptyString, s)
  end.

Definition int_of_literal (s : string) : option Z :=
  match NilZero.int_of_string s with
  | Some d => Some (Z.of_int d)
  | None => None
  end.

Definition starts_with (p s : string) : option string :=
  if prefix p s
  then Some (substring (String.length p) (String.length s - String.length p) s)
  else None.

Section Decoder.
Context {rt : Runtime}.

Definition scan_number (s : string) : option (value * string) :=
  match scan_integer s with
  | None => None
  | Some (i, s1) =>
      let (f, s2) := scan_fraction s1 in
      let (e, s3) := scan_exponent s2 in
      match f, e with
      | EmptyString, EmptyString =>
          match int_of_literal i with
          | Some n => Some (VInt n, s3)
          | None => None
          end
      | _, _ => Some (VFloat (float_of_literal (i ++ f ++ e)), s3)
      end
  end.

Definition scan_constant (s : string) : option (value * string) :=
  match starts_with "null" s with
  | Some r => Some (VNone, r)
  | None =>
  match starts_with "true" s with
  | Some r => Some (VBool true, r)
  | None =>
  match starts_with "false" s with
  | Some r => Some (VBool false, r)
  | None =>
  match starts_with "NaN" s with
  | Some r => Some (VFloat S754_nan, r)
  | None =>
  match starts_with "Infinity" s with
  | Some r => Some (VFloat (S754_infinity false), r)
  | None =>
  match starts_with "-Infinity" s with
  | Some r => Some (VFloat (S754_infinity true), r)
  | None => scan_number s
  end end end end end end.

Fixpoint scan_value (fuel : nat) (s : string) : option (value * string) :=
  match fuel with
  | O => None
  | S n =>
      match skip_ws s with
      | String "034" r =>
          match scan_string r with
          | Some (t, rest) => Some (VStr t, rest)
          | None => None
          end
      | String "{" r =>
          match skip_ws r with
          | String "}" rest => Some (VDict [], rest)
          | _ => scan_members n r []
          end
      | String "[" r =>
          match skip_ws r with
          | String "]" rest => Some (VList [], rest)
          | _ => scan_elements n r []
          end
      | other => scan_constant other
      end
  end

with scan_members (fuel : nat) (s : string) (acc : list (string * value))
  : option (value * string) :=
  match fuel with
  | O => None
  | S n =>
      match skip_ws s with
      | String "034" r =>
          match scan_string r with
          | Some (k, r1) =>
              match skip_ws r1 with
              | String ":" r2 =>
                  match scan_value n r2 with
                  | Some (v, r3) =>
                      match skip_ws r3 with
                      | String "," r4 => scan_members n r4 (dict_set k v acc)
                      | String "}" rest => Some (VDict (dict_set k v acc), rest)
                      | _ => None
                      end
                  | None => None
                  end
              | _ => None
              end
          | None => None
          end
      | _ => None
      end
  end

with scan_elements (fuel : nat) (s : string) (acc : list value)
  : option (value * string) :=
  match fuel with
  | O => None
  | S n =>
      match scan_value n s with
      | Some (v, r) =>
          match skip_ws r with
          | String "," r1 => scan_elements n r1 (acc ++ [v])
          | String "]" rest => Some (VList (acc ++ [v]), rest)
          | _ => None
          end
      | None => None
      end
  end.

Definition json_loads (s : string) : option value :=
  match scan_value (S (String.length s)) s with
  | Some (v, rest) =>
      match skip_ws rest with
      | EmptyString => Some v
      | _ => None
      end
  | None => None
  end.

End Decoder.

(** ** The fetch outcome, in the words of the design

    "Either a successfully decoded JSON document, or an absence signal":
    the document when a 2xx response decodes, [None] for a non-2xx status,
    for an exception of the client and for a body that does not decode. *)

Definition fetch_outcome (o : outcome Response) : value :=
  match o with
  | Ret r =>
      if is_success r
      then match json r with
           | Ret document => document
           | Raise _ => VNone
           end
      else VNone
  | Raise _ => VNone
  end.

(** What a fetch of [url] hands back when it is the [n]-th GET of the run. *)
Definition fetch_result (w : World) (n : nat) (url : value) : value :=
  match url with
  | VStr u => fetch_outcome (http_get w n u)
  | _ => VNone
  end.

(** How many records a fetch writes: the DEBUG line before the request,
    the INFO line after a 2xx status, one ERROR line per handler entered;
    each only if its level passes the threshold. *)
Definition records_of_fetch (w : World) (n : nat) (url : value) : nat :=
  let debug := if isEnabledFor w DEBUG then 1%nat else 0%nat in
  let info := if isEnabledFor w INFO then 1%nat else 0%nat in
  let error := if isEnabledFor w ERROR then 1%nat else 0%nat in
  (debug +
   match url with
   | VStr u =>
       match http_get w n u with
       | Ret r =>
           if is_success r
           then info + match json r with
                       | Ret _ => 0
                       | Raise _ => error
                       end
           else error
       | Raise _ => error
       end
   | _ => error
   end)%nat.

(** ** The replies as functions of what was fetched

    The statements of each operation's [try] block that follow a fetch, with
    the logging calls left out: what they return, or what they raise into
    the operation's handler. *)

Section Replies.
Context {rt : Runtime}.
Variable w : World.

Definition alerts_body (data : value) : outcome string :=
  obind (if negb (truthy data) then Ret true
         else obind (contains "features" data)
                (fun present => Ret (negb present))) (fun unusable =>
  if unusable : bool then Ret "Unable to fetch alerts or no alerts found."
  else
    obind (getitem data "features") (fun features =>
    if negb (truthy features) then Ret "No active alerts for this state."
    else
      obind (iterate features) (fun items =>
      obind (omap format_alert items) (fun alerts =>
      Ret (String.concat separator alerts))))).

Definition alerts_reply (data : value) : string :=
  match alerts_body data with
  | Ret text => text
  | Raise _ => "An error occurred while fetching alerts."
  end.

(** The forecast URL the points document names, when there is one to
    fetch. *)
Definition forecast_target (data : value) : outcome value :=
  obind (getitem data "properties") (fun properties =>
  getitem properties "forecast").

Definition periods_body (forecast_data : value) : outcome string :=
  if negb (truthy forecast_data) then Ret "Unable to fetch detailed forecast."
  else
    obind (getitem forecast_data "properties") (fun properties =>
    obind (getitem properties "periods") (fun periods =>
    obind (slice_to 5 periods) (fun shown =>
    obind (iterate shown) (fun items =>
    obind (omap format_period items) (fun forecasts =>
    Ret (String.concat separator forecasts)))))).

(** [n] GETs were sent before the operation began. *)
Definition forecast_body (n : nat) (data : value) : outcome string :=
  if negb (truthy data)
  then Ret "Unable to fetch forecast data for this location."
  else
    obind (forecast_target data) (fun forecast_url =>
    periods_body (fetch_result w (S n) forecast_url)).

Definition forecast_reply (n : nat) (data : value) : string :=
  match forecast_body n data with
  | Ret text => text
  | Raise _ => "An error occurred while fetching forecast."
  end.

(** The URLs [get_forecast] asks for after the points URL. *)
Definition forecast_followup (data : value) : list string :=
  if negb (truthy data) then []
  else match forecast_target data with
       | Ret (VStr u) => [u]
       | _ => []
       end.

Definition alerts_url (state : string) : string :=
  NWS_API_BASE ++ "/alerts/active/area/" ++ state.

Definition points_url (latitude longitude : spec_float) : string :=
  NWS_API_BASE ++ "/points/" ++ float_str latitude ++ ","
  ++ float_str longitude.

End Replies.

(** The fixed fields of a rendered record, as the JSON formatter names
    them. *)
Definition fixed_fields : list string :=
  [ "timestamp"; "level"; "logger"; "message"; "file"; "function";
    "process"; "thread"; "correlation_id"; "request_id"; "user_id";
    "environment"; "app_version"; "host" ].

(** ** A concrete runtime and concrete worlds, for evaluating the model *)

Definition sample_runtime : Runtime :=
  {| float_str := fun f => match f with
                           | S754_zero _ => "0.0"
                           | _ => "47.6"
                           end;
     float_of_literal := fun _ => S754_zero false;
     str_repr := fun s => "'" ++ s ++ "'";
     seconds_6f := fun us => str_int (us / 1000000) ++ ".000000";
     isoformat := fun us => "2025-01-01T00:00:" ++ str_int us;
     format_exception := fun e => "Traceback (most recent call last):" ++ nl
                                  ++ exn_str e ++ nl;
     plain_format := fun r => levelname r ++ " - " ++ name r ++ " - "
                              ++ message r |}.

Definition sample_world (env : string -> option string)
    (upstream : nat -> string -> outcome Response) : World :=
  mkWorld env (fun n => "id-" ++ str_int (Z.of_nat n))
    (fun n => Z.of_nat n * 1000) upstream "id-load-0" "id-load-1" 4242
    "MainThread" WARNING.

Definition no_env : string -> option string := fun _ => None.

Definition env_production : string -> option string :=
  fun k => if String.eqb k "ENV" then Some "production" else None.

Definition env_debug : string -> option string :=
  fun k => if String.eqb k "LOG_LEVEL" then Some "DEBUG" else None.

Definition respond (status : Z) (body : outcome value) : outcome Response :=
  Ret (mkResponse status "status error" body).

Definition timeout_error : exn := mkExn TimeoutException "timed out".

Definition decode_error : exn :=
  mkExn (OtherException "JSONDecodeError") "Expecting value".

Definition always (o : outcome Response) : nat -> string -> outcome Response :=
  fun _ _ => o.

Definition period (n : Z) : value :=
  VDict [ ("name", VStr ("Period " ++ str_int n));
          ("temperature", VInt (60 + n));
          ("temperatureUnit", VStr "F");
          ("windSpeed", VStr "5 mph");
          ("windDirection", VStr "NW");
          ("detailedForecast", VStr "Clear.") ].

Definition seven_periods : list value :=
  [period 1; period 2; period 3; period 4; period 5; period 6; period 7].

(** Upstream for a forecast: the first GET meets the points resource, the
    second the forecast it names. *)
Definition forecast_upstream (periods : list value)
  : nat -> string -> outcome Response :=
  fun n _ =>
    match n with
    | O => respond 200 (Ret (VDict [("properties",
                               VDict [("forecast", VStr "https://api.weather.gov/gridpoints/SEW/1,2/forecast")])]))
    | _ => respond 200 (Ret (VDict [("properties",
                               VDict [("periods", VList periods)])]))
    end.

Definition flood_feature : value :=
  VDict [("properties", VDict [("event", VStr "Flood Warning")])].

Definition alerts_payload (features : list value) : value :=
  VDict [("features", VList features)].

(** A record as [logger.error(..., exc_info=True)] would make it, to which
    an "error_details" string was supplied as well. *)
Definition sample_record : LogRecord :=
  mkLogRecord "ERROR" ERROR "WeatherService" "HTTP error occurred: 404"
    "weather.py" 93 "make_nws_request" 4242 "MainThread" 0
    (Some (mkExn (HTTPStatusError 404) "404 Not Found"))
    [("error_details", "supplied by the caller")].

(** A plain informational record without duration or error details. *)
Definition plain_record : LogRecord :=
  mkLogRecord "INFO" INFO "WeatherService" "Getting alerts for state: CA"
    "weather.py" 130 "get_alerts" 4242 "MainThread" 0 None
    [("correlation_id", "id-0")].

Definition no_context : Context := mkContext None None None.

Definition production_world (o : outcome Response) : World :=
  sample_world env_production (always o).

Definition quiet_world (o : outcome Response) : World :=
  sample_world no_env (always o).

Definition debug_world (o : outcome Response) : World :=
  sample_world env_debug (always o).

Definition points_document : value :=
  VDict [("properties",
          VDict [("forecast",
                  VStr "https://api.weather.gov/gridpoints/SEW/1,2/forecast")])].

(** The points document arrives, the forecast itself times out. *)
Definition detail_times_out : nat -> string -> outcome Response :=
  fun n _ =>
    match n with
    | O => respond 200 (Ret points_document)
    | _ => Raise timeout_error
    end.

(** ** Vocabulary for reading rendered records back *)

(** A decimal numeral that starts with a digit other than zero. *)
Definition leading_nonzero (d : Decimal.uint) : Prop :=
  match d with
  | Decimal.Nil | Decimal.D0 _ => False
  | _ => True
  end.

(** A character after which a number cannot go on. *)
Definition number_end (c : ascii) : bool :=
  negb (is_digit c) && negb (Ascii.eqb c ".") && negb (Ascii.eqb c "e")
  && negb (Ascii.eqb c "E").

(** The values a rendered record holds: strings and integers. *)
Definition flat (v : value) : Prop :=
  match v with
  | VStr _ | VInt _ => True
  | _ => False
  end.

Section Members.
Context {rt : Runtime}.

(** One "key": value pair as [json_dumps] writes it. *)
Definition member (kv : string * value) : string :=
  match kv with
  | (k, x) => json_string k ++ ": " ++ json_dumps x
  end.

(** The pairs of an object up to and including its closing brace, followed
    by [rest]. *)
Fixpoint members_text (kvs : list (string * value)) (rest : string)
  : string :=
  match kvs with
  | [] => rest
  | [kv] => member kv ++ String "}" rest
  | kv :: more =>
      member kv ++ String "," (String " " (members_text more rest))
  end.

End Members.

(** The dictionary the decoder builds from pairs read in order. *)
Definition rebuild (kvs acc : list (string * value))
  : list (string * value) :=
  fold_left (fun a kv => dict_set (fst kv) (snd kv) a) kvs acc.

(** ** Vocabulary for the operations *)

Section Documents.
Context {rt : Runtime}.
Variable w : World.

(** The forecast document [get_forecast] works on, when its first fetch
    gave a truthy points document that names a URL string; [n] GETs were
    sent before the operation began. *)
Definition forecast_document (n : nat) (latitude longitude : spec_float)
  : option value :=
  let points := fetch_outcome (http_get w n (points_url latitude longitude)) in
  if truthy points then
    match forecast_target points with
    | Ret (VStr target) => Some (fetch_outcome (http_get w (S n) target))
    | _ => None
    end
  else None.

End Documents.

(** The six keys the loop of [get_forecast] reads from a period. *)
Definition period_keys : list string :=
  [ "name"; "temperature"; "temperatureUnit"; "windSpeed"; "windDirection";
    "detailedForecast" ].

(** A feature whose "properties" object is [props]. *)
Definition feature_of (props : list (string * value)) : value :=
  VDict [("properties", VDict props)].

(** ** Vocabulary for the records written *)

Section Entries.
Context {rt : Runtime}.
Variable w : World.

(** The record a logging call makes in state [st], and the line the
    handler writes for it. *)
Definition made_record (level : Z) (lname msg : string) (exc : option exn)
    (extras : list (string * string)) (func : string) (line : Z)
    (st : State) : LogRecord :=
  mkLogRecord lname level "WeatherService" msg "weather.py" line func
    (pid w) (thread_name w) (clock w (clock_reads st)) exc extras.

Definition written_line (record : LogRecord) (st : State) : string :=
  if production w
  then JSONFormatter_format w (context st) (clock w (S (clock_reads st)))
         record
  else plain_format record.

(** An entry whose line is the JSON rendering of its record under a call
    context that satisfies [P]. *)
Definition rendered_under (P : Context -> Prop) (entry : LogRecord * string)
  : Prop :=
  exists c now,
    P c /\ snd entry = JSONFormatter_format w c now (fst entry).

(** [st'] holds the records of [st] followed by entries rendered under
    [P]. *)
Definition extends (P : Context -> Prop) (st st' : State) : Prop :=
  exists new,
    emitted st' = (emitted st ++ new)%list
    /\ Forall (rendered_under P) new.

(** A line that parses to a JSON object whose [field] is the string
    [text]. *)
Definition carries (field text : string) (entry : LogRecord * string)
  : Prop :=
  exists object,
    json_loads (snd entry) = Some (VDict object)
    /\ lookup field object = Some (VStr text).

End Entries.

Definition any_context (c : Context) : Prop := True.

Definition has_correlation (corr : string) (c : Context) : Prop :=
  correlation_id c = Some corr.

Definition has_request (req : string) (c : Context) : Prop :=
  request_id c = Some req.



(** * Properties *)

(** ** Running the monad *)

Lemma bind_ret {A B} (m : M A) (k : A -> M B) st a st' :
  m st = (Ret a, st') -> bind m k st = k a st'.
Proof. intros H; unfold bind; rewrite H; reflexivity. Qed.

Lemma bind_raise {A B} (m : M A) (k : A -> M B) st e st' :
  m st = (Raise e, st') -> bind m k st = (Raise e, st').
Proof. intros H; unfold bind; rewrite H; reflexivity. Qed.

Lemma omap_raises {A B} (f : A -> outcome B) (l : list A) x e :
  In x l -> f x = Raise e -> exists e', omap f l = Raise e'.
Proof.
  induction l as [|y ys IH]; intros Hin Hx; [contradiction|].
  simpl. destruct Hin as [->|Hin].
  - rewrite Hx. simpl. eauto.
  - destruct (f y) as [b|e0]; simpl; [|eauto].
    destruct (IH Hin Hx) as [e' ->]. simpl. eauto.
Qed.

Lemma omap_length {A B} (f : A -> outcome B) (l : list A) (r : list B) :
  omap f l = Ret r -> List.length r = List.length l.
Proof.
  revert r; induction l as [|y ys IH]; simpl; intros r H.
  - injection H as <-. reflexivity.
  - destruct (f y) as [b|e]; simpl in H; [|discriminate].
    destruct (omap f ys) as [bs|e]; simpl in H; [|discriminate].
    injection H as <-. simpl. f_equal. apply IH. reflexivity.
Qed.

Section Logging.
Context {rt : Runtime}.
Variable w : World.

(** A logging call sends nothing upstream, leaves the call context alone
    and writes one record or none. *)
Lemma write_record_requests level lname msg exc extras func line st :
  requests (write_record w level lname msg exc extras func line st)
  = requests st.
Proof.
  unfold write_record.
  destruct (isEnabledFor w level), (production w); reflexivity.
Qed.

Lemma write_record_context level lname msg exc extras func line st :
  context (write_record w level lname msg exc extras func line st)
  = context st.
Proof.
  unfold write_record.
  destruct (isEnabledFor w level), (production w); reflexivity.
Qed.

Lemma write_record_uuids level lname msg exc extras func line st :
  uuids_drawn (write_record w level lname msg exc extras func line st)
  = uuids_drawn st.
Proof.
  unfold write_record.
  destruct (isEnabledFor w level), (production w); reflexivity.
Qed.

Lemma write_record_count level lname msg exc extras func line st :
  List.length
    (emitted (write_record w level lname msg exc extras func line st))
  = (List.length (emitted st) + if isEnabledFor w level then 1 else 0)%nat.
Proof.
  unfold write_record.
  destruct (isEnabledFor w level), (production w); simpl;
    rewrite ?List.length_app; simpl; lia.
Qed.

End Logging.

Arguments write_record : simpl never.

Create Rewrite HintDb run.
#[export] Hint Rewrite @write_record_requests @write_record_context
  @write_record_uuids @write_record_count : run.

(** ** The instrumented fetcher *)

Ltac run :=
  unfold try_except, bind, lift, elapsed, raise_for_status, client_get,
    logger_debug, logger_info, logger_warning, logger_error,
    logger_exception, log, now, new_uuid, set_request_id,
    set_correlation_id, ret, raise in *;
  cbn; repeat (progress (autorewrite with run; cbn)).

Ltac fetch_cases :=
  unfold returned, final, make_nws_request, fetch_result, fetch_outcome,
    records_of_fetch;
  match goal with
  | url : value |- _ =>
      destruct url; run; rewrite ?List.app_nil_r; try reflexivity; try lia;
      match goal with
      | |- context [http_get ?w ?n ?s] =>
          destruct (http_get w n s) as [r|e]; cbn;
          [ destruct (is_success r); cbn;
            repeat (progress (autorewrite with run; cbn));
            [ destruct (json r) as [v|e]; cbn;
              repeat (progress (autorewrite with run; cbn));
              [ | destruct (exn_class_of e); cbn;
                  repeat (progress (autorewrite with run; cbn)) ]
            | ]
          | destruct (exn_class_of e); cbn;
            repeat (progress (autorewrite with run; cbn)) ]
      end
  end.

Section Fetcher.
Context {rt : Runtime}.
Variable w : World.
Local Arguments append : simpl never.

Lemma make_nws_request_returned url st :
  returned (make_nws_request w url st)
  = Ret (fetch_result w (List.length (requests st)) url).
Proof. fetch_cases; reflexivity. Qed.

Lemma make_nws_request_requests url st :
  requests (final (make_nws_request w url st))
  = (requests st ++ match url with VStr u => [u] | _ => [] end)%list.
Proof. fetch_cases; reflexivity. Qed.

Lemma make_nws_request_correlation url st :
  correlation_id (context (final (make_nws_request w url st)))
  = correlation_id (context st).
Proof. fetch_cases; reflexivity. Qed.

Lemma make_nws_request_uuids url st :
  uuids_drawn (final (make_nws_request w url st)) = S (uuids_drawn st).
Proof. fetch_cases; reflexivity. Qed.

Lemma make_nws_request_count url st :
  List.length (emitted (final (make_nws_request w url st)))
  = (List.length (emitted st)
     + records_of_fetch w (List.length (requests st)) url)%nat.
Proof. fetch_cases; lia. Qed.

Lemma make_nws_request_run url st :
  make_nws_request w url st
  = (Ret (fetch_result w (List.length (requests st)) url),
     final (make_nws_request w url st)).
Proof.
  pose proof (make_nws_request_returned url st) as H.
  unfold returned, final in *.
  destruct (make_nws_request w url st) as [o st']. simpl in *.
  now subst.
Qed.

(** C1.  For every URL and every outcome of the GET, [make_nws_request]
    returns normally: the decoded document when a 2xx response decodes,
    [None] after a non-2xx status, a timeout or any other exception of the
    client or of the decoder.  No exception reaches the caller, whatever is
    passed as the URL. *)
Theorem make_nws_request_never_raises :
  (forall (url : string) (st : State),
      returned (make_nws_request w (VStr url) st)
      = Ret (fetch_outcome (http_get w (List.length (requests st)) url)))
  /\ (forall (url : value) (st : State),
         exists v, returned (make_nws_request w url st) = Ret v).
Proof.
  split; intros url st.
  - apply (make_nws_request_returned (VStr url)).
  - eexists. apply make_nws_request_returned.
Qed.

(** C2, as amended.  With the threshold at INFO, the module's default, a
    call writes exactly one record when the client raises (a timeout or any
    other exception), when the status is not 2xx and when a 2xx body
    decodes; when a 2xx body fails to decode it writes two, the success line
    and then the error line. *)
Theorem make_nws_request_records_at_INFO (url : string) (st : State) :
  effective_level w = Some INFO ->
  let met := http_get w (List.length (requests st)) url in
  let before := List.length (emitted st) in
  let after :=
    List.length (emitted (final (make_nws_request w (VStr url) st))) in
  (forall e, met = Raise e -> after = (before + 1)%nat)
  /\ (forall r, met = Ret r -> is_success r = false ->
                after = (before + 1)%nat)
  /\ (forall r v, met = Ret r -> is_success r = true -> json r = Ret v ->
                  after = (before + 1)%nat)
  /\ (forall r e, met = Ret r -> is_success r = true -> json r = Raise e ->
                  after = (before + 2)%nat).
Proof.
  intros Hlevel met before after. subst met before after.
  rewrite make_nws_request_count. unfold records_of_fetch, isEnabledFor.
  rewrite Hlevel. cbn.
  repeat split; intros.
  - rewrite H. reflexivity.
  - rewrite H, H0. reflexivity.
  - rewrite H, H0, H1. reflexivity.
  - rewrite H, H0, H1. reflexivity.
Qed.

End Fetcher.

Arguments make_nws_request : simpl never.
Arguments fetch_result : simpl never.

(** ** The two operations *)

Ltac fetch_step w :=
  match goal with
  | |- context [make_nws_request w ?u ?s] =>
      rewrite (make_nws_request_run w u s);
      let H1 := fresh "Hreq" in
      let H2 := fresh "Hcnt" in
      let H3 := fresh "Hcor" in
      pose proof (make_nws_request_requests w u s) as H1;
      pose proof (make_nws_request_count w u s) as H2;
      pose proof (make_nws_request_correlation w u s) as H3;
      let st' := fresh "st" in
      generalize dependent (final (make_nws_request w u s));
      intros st' H1 H2 H3;
      autorewrite with run in *; cbn in *
  end.

Ltac branch x := destruct x; cbn; autorewrite with run; try eassumption;
                 try reflexivity.

Section Operations_facts.
Context {rt : Runtime}.
Variable w : World.
Local Arguments append : simpl never.

(** What [get_alerts] returns depends on the fetched document alone. *)
Lemma get_alerts_returned state st :
  returned (get_alerts w state st)
  = Ret (alerts_reply
           (fetch_result w (List.length (requests st))
              (VStr (alerts_url state)))).
Proof.
  unfold returned, get_alerts, alerts_reply, alerts_body, alerts_url.
  run. fetch_step w.
  set (data := fetch_result _ _ _) in *. clearbody data.
  branch (truthy data).
  branch (contains "features" data). branch a.
  branch (getitem data "features"). branch (truthy a).
  branch (iterate a). branch (omap format_alert a0).
Qed.

Lemma get_alerts_requests state st :
  requests (final (get_alerts w state st))
  = (requests st ++ [alerts_url state])%list.
Proof.
  unfold final, get_alerts, alerts_url.
  run. fetch_step w.
  set (data := fetch_result _ _ _) in *. clearbody data.
  branch (truthy data).
  branch (contains "features" data). branch a.
  branch (getitem data "features"). branch (truthy a).
  branch (iterate a). branch (omap format_alert a0).
Qed.

Lemma get_forecast_returned latitude longitude st :
  returned (get_forecast w latitude longitude st)
  = Ret (forecast_reply w (List.length (requests st))
           (fetch_result w (List.length (requests st))
              (VStr (points_url latitude longitude)))).
Proof.
  unfold returned, get_forecast, forecast_reply, forecast_body,
    forecast_target, periods_body, points_url.
  run. fetch_step w.
  set (data := fetch_result _ _ _) in *. clearbody data.
  branch (truthy data).
  branch (getitem data "properties"). branch (getitem a "forecast").
  fetch_step w.
  rewrite Hreq, List.length_app, Nat.add_comm. cbn.
  set (forecast_data := fetch_result _ _ _) in *. clearbody forecast_data.
  branch (truthy forecast_data).
  branch (getitem forecast_data "properties").
  branch (getitem a1 "periods"). branch (slice_to 5 a2).
  branch (iterate a3). branch (omap format_period a4).
Qed.

Lemma get_forecast_requests latitude longitude st :
  requests (final (get_forecast w latitude longitude st))
  = (requests st ++ points_url latitude longitude
       :: forecast_followup
            (fetch_result w (List.length (requests st))
               (VStr (points_url latitude longitude))))%list.
Proof.
  unfold final, get_forecast, forecast_followup, forecast_target, points_url.
  run. fetch_step w.
  set (data := fetch_result _ _ _) in *. clearbody data.
  branch (truthy data).
  branch (getitem data "properties"). branch (getitem a "forecast").
  fetch_step w.
  set (forecast_data := fetch_result _ _ _) in *. clearbody forecast_data.
  assert (E : requests st1
              = (requests st ++ points_url latitude longitude
                   :: match a0 with VStr u => [u] | _ => [] end)%list).
  { rewrite Hreq0, Hreq. unfold points_url. rewrite <- List.app_assoc.
    reflexivity. }
  unfold points_url in E.
  branch (truthy forecast_data).
  branch (getitem forecast_data "properties").
  branch (getitem a1 "periods"). branch (slice_to 5 a2).
  branch (iterate a3). branch (omap format_period a4).
Qed.

End Operations_facts.

Section Operations_claims.
Context {rt : Runtime}.
Variable w : World.

Lemma lookup_nonempty {A} k (d : list (string * A)) x :
  lookup k d = Some x -> d <> [].
Proof. destruct d; [discriminate | discriminate]. Qed.

(** C3.  [get_alerts] answers "Unable to fetch alerts or no alerts found."
    when the fetch returns [None] or an object without a "features" key,
    "No active alerts for this state." when the features list is empty, and
    otherwise the formatted features joined by the "---" separator line. *)
Theorem get_alerts_cases (state : string) (st : State) :
  let data :=
    fetch_outcome (http_get w (List.length (requests st)) (alerts_url state)) in
  let reply := returned (get_alerts w state st) in
  (data = VNone ->
   reply = Ret "Unable to fetch alerts or no alerts found.")
  /\ (forall d, data = VDict d -> lookup "features" d = None ->
                reply = Ret "Unable to fetch alerts or no alerts found.")
  /\ (forall d, data = VDict d -> lookup "features" d = Some (VList []) ->
                reply = Ret "No active alerts for this state.")
  /\ (forall d feature features blocks,
         data = VDict d ->
         lookup "features" d = Some (VList (feature :: features)) ->
         omap format_alert (feature :: features) = Ret blocks ->
         reply = Ret (String.concat separator blocks)).
Proof.
  intros data reply. subst reply. rewrite get_alerts_returned.
  unfold fetch_result. fold data. clearbody data.
  unfold alerts_reply, alerts_body.
  repeat split.
  - intros ->. reflexivity.
  - intros d -> H. destruct d as [|kv d]; [reflexivity|].
    cbn -[lookup]. rewrite H. reflexivity.
  - intros d -> H. destruct d as [|kv d]; [discriminate|].
    cbn -[lookup]. rewrite H. reflexivity.
  - intros d feature features blocks -> H Hblocks.
    destruct d as [|kv d]; [discriminate|].
    cbn -[lookup omap]. rewrite H. cbn -[omap]. rewrite Hblocks.
    reflexivity.
Qed.

(** C4.  When both fetches of [get_forecast] succeed and the forecast
    document lists more than five periods, exactly the first five are
    formatted and joined by the "---" separator line; the later periods play
    no part in the reply. *)
Theorem get_forecast_first_five (latitude longitude : spec_float)
    (st : State) :
  let n := List.length (requests st) in
  forall points target forecast properties periods blocks,
    fetch_outcome (http_get w n (points_url latitude longitude)) = points ->
    truthy points = true ->
    forecast_target points = Ret (VStr target) ->
    fetch_outcome (http_get w (S n) target) = forecast ->
    truthy forecast = true ->
    getitem forecast "properties" = Ret properties ->
    getitem properties "periods" = Ret (VList periods) ->
    (5 < List.length periods)%nat ->
    omap format_period (firstn 5 periods) = Ret blocks ->
    returned (get_forecast w latitude longitude st)
    = Ret (String.concat separator blocks)
    /\ List.length blocks = 5%nat.
Proof.
  intros n points target forecast properties periods blocks
    Hpoints Htruthy Htarget Hforecast Htruthy' Hprops Hperiods Hlen Hblocks.
  split.
  - rewrite get_forecast_returned. unfold fetch_result. fold n.
    rewrite Hpoints.
    unfold forecast_reply, forecast_body. rewrite Htruthy, Htarget.
    cbn -[periods_body]. unfold fetch_result. rewrite Hforecast.
    unfold periods_body. rewrite Htruthy', Hprops. cbn -[omap firstn].
    rewrite Hperiods. cbn -[omap firstn]. rewrite Hblocks. reflexivity.
  - rewrite (omap_length _ _ _ Hblocks), List.length_firstn. lia.
Qed.

(** C5.  When the points fetch of [get_forecast] returns [None], the reply
    is "Unable to fetch forecast data for this location." and the points
    URL is the only request sent: no second fetch is attempted. *)
Theorem get_forecast_points_absent (latitude longitude : spec_float)
    (st : State) :
  fetch_outcome
    (http_get w (List.length (requests st)) (points_url latitude longitude))
  = VNone ->
  returned (get_forecast w latitude longitude st)
  = Ret "Unable to fetch forecast data for this location."
  /\ requests (final (get_forecast w latitude longitude st))
     = (requests st ++ [points_url latitude longitude])%list.
Proof.
  intros H. split.
  - rewrite get_forecast_returned. unfold fetch_result. rewrite H.
    reflexivity.
  - rewrite get_forecast_requests. unfold fetch_result. rewrite H.
    reflexivity.
Qed.

(** C6.  Both operations always return a string and never raise.  A
    failure of the formatting step, such as a missing key in a document
    that was fetched successfully, is turned into the generic reply of the
    operation. *)
Theorem operations_never_raise :
  (forall state st, exists text, returned (get_alerts w state st) = Ret text)
  /\ (forall latitude longitude st,
         exists text,
           returned (get_forecast w latitude longitude st) = Ret text)
  /\ (forall state st e,
         alerts_body
           (fetch_outcome
              (http_get w (List.length (requests st)) (alerts_url state)))
         = Raise e ->
         returned (get_alerts w state st)
         = Ret "An error occurred while fetching alerts.")
  /\ (forall latitude longitude st e,
         forecast_body w (List.length (requests st))
           (fetch_outcome
              (http_get w (List.length (requests st))
                 (points_url latitude longitude)))
         = Raise e ->
         returned (get_forecast w latitude longitude st)
         = Ret "An error occurred while fetching forecast.").
Proof.
  repeat split.
  - intros. eexists. apply get_alerts_returned.
  - intros. eexists. apply get_forecast_returned.
  - intros state st e H. rewrite get_alerts_returned.
    unfold fetch_result, alerts_reply. rewrite H. reflexivity.
  - intros latitude longitude st e H. rewrite get_forecast_returned.
    unfold fetch_result, forecast_reply. rewrite H. reflexivity.
Qed.

(** C10.  When the fetched document has a non-empty features list in which
    some feature is an object without a "properties" key, [get_alerts]
    answers "An error occurred while fetching alerts.", not the "Unable to
    fetch" reply; a feature whose "properties" object lacks any of the five
    inner keys is formatted with the defaults instead. *)
Theorem get_alerts_feature_without_properties (state : string) (st : State) :
  (forall d features kv,
      fetch_outcome
        (http_get w (List.length (requests st)) (alerts_url state))
      = VDict d ->
      lookup "features" d = Some (VList features) ->
      In (VDict kv) features ->
      lookup "properties" kv = None ->
      returned (get_alerts w state st)
      = Ret "An error occurred while fetching alerts."
      /\ returned (get_alerts w state st)
         <> Ret "Unable to fetch alerts or no alerts found.")
  /\ (forall props, exists text,
         format_alert (VDict [("properties", VDict props)]) = Ret text)
  /\ format_alert (VDict [("properties", VDict [])])
     = Ret (nl ++ "Event: Unknown" ++ nl
            ++ "Area: Unknown" ++ nl
            ++ "Severity: Unknown" ++ nl
            ++ "Description: No description available" ++ nl
            ++ "Instructions: No specific instructions provided" ++ nl).
Proof.
  repeat split.
  - rewrite get_alerts_returned. unfold fetch_result. rewrite H.
    destruct d as [|p d]; [discriminate|].
    destruct features as [|f fs]; [contradiction|].
    assert (Hraise : format_alert (VDict kv)
                     = Raise (mkExn KeyError (str_repr "properties"))).
    { unfold format_alert. cbn -[lookup]. rewrite H2. reflexivity. }
    destruct (omap_raises format_alert (f :: fs) _ _ H1 Hraise) as [e' He'].
    unfold alerts_reply, alerts_body. cbn -[lookup omap]. rewrite H0.
    cbn -[omap]. rewrite He'. reflexivity.
  - rewrite get_alerts_returned. unfold fetch_result. rewrite H.
    destruct d as [|p d]; [discriminate|].
    destruct features as [|f fs]; [contradiction|].
    assert (Hraise : format_alert (VDict kv)
                     = Raise (mkExn KeyError (str_repr "properties"))).
    { unfold format_alert. cbn -[lookup]. rewrite H2. reflexivity. }
    destruct (omap_raises format_alert (f :: fs) _ _ H1 Hraise) as [e' He'].
    unfold alerts_reply, alerts_body. cbn -[lookup omap]. rewrite H0.
    cbn -[omap]. rewrite He'. discriminate.
  - intros props. eexists. reflexivity.
Qed.

End Operations_claims.

(** ** Reading a rendered record back *)

Lemma append_assoc' (a b c : string) : (a ++ b) ++ c = a ++ (b ++ c).
Proof. induction a; simpl; congruence. Qed.

Lemma length_append' (a b : string) :
  String.length (a ++ b) = (String.length a + String.length b)%nat.
Proof. induction a; simpl; congruence. Qed.

(** Every character survives its escape: 256 cases, each by evaluation. *)
Lemma scan_string_escape_char (c : ascii) (s : string) :
  scan_string (escape_char c ++ s) = prepend c (scan_string s).
Proof. destruct c as [[] [] [] [] [] [] [] []]; reflexivity. Qed.

Lemma scan_string_escape (s rest : string) :
  scan_string (escape s ++ dquote ++ rest) = Some (s, rest).
Proof.
  induction s as [|c s IH]; [reflexivity|].
  simpl escape. rewrite append_assoc', scan_string_escape_char, IH.
  reflexivity.
Qed.

Lemma nzhead_not_D0 d u : Decimal.nzhead d <> Decimal.D0 u.
Proof. induction d; simpl; try discriminate. assumption. Qed.

Lemma unorm_D0_inv d u : Decimal.unorm d = Decimal.D0 u -> u = Decimal.Nil.
Proof.
  unfold Decimal.unorm. destruct (Decimal.nzhead d) eqn:E; try discriminate.
  - intros H; injection H as <-. reflexivity.
  - exfalso. exact (nzhead_not_D0 _ _ E).
Qed.

Lemma to_uint_normal p : Decimal.unorm (Pos.to_uint p) = Pos.to_uint p.
Proof.
  rewrite <- (DecimalPos.Unsigned.to_of (Pos.to_uint p)).
  rewrite DecimalPos.Unsigned.of_to. reflexivity.
Qed.

Lemma to_uint_leading p : leading_nonzero (Pos.to_uint p).
Proof.
  pose proof (to_uint_normal p) as Hn.
  pose proof (DecimalPos.Unsigned.to_uint_nonzero p) as Hz.
  pose proof (DecimalPos.Unsigned.to_uint_nonnil p) as Hnil.
  destruct (Pos.to_uint p) eqn:E; simpl; auto.
  apply unorm_D0_inv in Hn. subst. apply Hz. reflexivity.
Qed.

Lemma span_digits_numeral d c r :
  is_digit c = false ->
  span_digits (NilEmpty.string_of_uint d ++ String c r)
  = (NilEmpty.string_of_uint d, String c r).
Proof.
  intros Hc. induction d; simpl; try (rewrite IHd; reflexivity).
  rewrite Hc. reflexivity.
Qed.

Lemma number_end_digit c : number_end c = true -> is_digit c = false.
Proof.
  unfold number_end. destruct (is_digit c); [discriminate | reflexivity].
Qed.

Lemma scan_tail c r :
  number_end c = true ->
  scan_fraction (String c r) = (EmptyString, String c r)
  /\ scan_exponent (String c r) = (EmptyString, String c r).
Proof.
  unfold number_end. intros H.
  apply andb_prop in H as [H He]. apply andb_prop in H as [H Hee].
  apply andb_prop in H as [_ Hp].
  apply negb_true_iff in He, Hee, Hp.
  split.
  - unfold scan_fraction.
    destruct c as [[] [] [] [] [] [] [] []]; try reflexivity; discriminate.
  - unfold scan_exponent. rewrite He, Hee. reflexivity.
Qed.

Lemma int_of_literal_str_int n : int_of_literal (str_int n) = Some n.
Proof.
  unfold int_of_literal, str_int.
  rewrite NilZero.isi.
  - rewrite DecimalZ.of_to. reflexivity.
  - destruct n; simpl; try discriminate.
    intros H; injection H as H.
    exact (DecimalPos.Unsigned.to_uint_nonnil _ H).
  - destruct n; simpl; try discriminate.
    intros H; injection H as H.
    exact (DecimalPos.Unsigned.to_uint_nonnil _ H).
Qed.

Section Decoding.
Context {rt : Runtime}.

Lemma scan_value_numeral fuel d c r sign :
  leading_nonzero d -> number_end c = true ->
  sign = EmptyString \/ sign = "-" ->
  scan_value (S fuel) (sign ++ NilEmpty.string_of_uint d ++ String c r)
  = match int_of_literal (sign ++ NilEmpty.string_of_uint d) with
    | Some n => Some (VInt n, String c r)
    | None => None
    end.
Proof.
  intros Hd Hc Hsign.
  pose proof (number_end_digit _ Hc) as Hdig.
  destruct (scan_tail c r Hc) as [Hf He].
  destruct d; try contradiction; destruct Hsign as [-> | ->].
  all: cbn -[span_digits scan_fraction scan_exponent int_of_literal];
    unfold scan_number, scan_integer;
    cbn -[scan_fraction scan_exponent int_of_literal];
    rewrite span_digits_numeral by assumption.
  all: cbv beta iota zeta delta -[scan_fraction scan_exponent int_of_literal
                   NilEmpty.string_of_uint append float_of_literal];
    rewrite Hf; cbv beta iota zeta;
    rewrite He; reflexivity.
Qed.

Lemma scan_value_str_int fuel n c r :
  number_end c = true ->
  scan_value (S fuel) (str_int n ++ String c r) = Some (VInt n, String c r).
Proof.
  intros Hc.
  pose proof (int_of_literal_str_int n) as Hn.
  destruct n as [|p|p].
  - destruct (scan_tail c r Hc) as [Hf He].
    cbn -[scan_fraction scan_exponent].
    unfold scan_number, scan_integer.
    cbn -[scan_fraction scan_exponent].
    rewrite Hf. cbn -[scan_fraction scan_exponent]. rewrite He. reflexivity.
  - unfold str_int in *. cbn [Z.to_int NilZero.string_of_int] in *.
    pose proof (to_uint_leading p) as Hl.
    assert (E : NilZero.string_of_uint (Pos.to_uint p)
                = NilEmpty.string_of_uint (Pos.to_uint p)).
    { destruct (Pos.to_uint p); try reflexivity; contradiction. }
    rewrite E in *.
    pose proof (scan_value_numeral fuel _ c r EmptyString Hl Hc
                  (or_introl eq_refl)) as H.
    cbn [append] in H. rewrite H, Hn. reflexivity.
  - unfold str_int in *. cbn [Z.to_int NilZero.string_of_int] in *.
    pose proof (to_uint_leading p) as Hl.
    assert (E : NilZero.string_of_uint (Pos.to_uint p)
                = NilEmpty.string_of_uint (Pos.to_uint p)).
    { destruct (Pos.to_uint p); try reflexivity; contradiction. }
    rewrite E in *.
    pose proof (scan_value_numeral fuel _ c r "-" Hl Hc
                  (or_intror eq_refl)) as H.
    cbn [append] in H. cbn [append]. rewrite H, Hn. reflexivity.
Qed.

Lemma scan_string_quoted (s rest : string) :
  scan_string (escape s ++ String "034" rest) = Some (s, rest).
Proof. exact (scan_string_escape s rest). Qed.

Lemma scan_value_string fuel s rest :
  scan_value (S fuel) (json_string s ++ rest) = Some (VStr s, rest).
Proof.
  unfold json_string. rewrite !append_assoc'.
  cbn -[scan_string]. rewrite scan_string_quoted. reflexivity.
Qed.

Lemma scan_value_flat fuel x c r :
  flat x -> number_end c = true ->
  scan_value (S fuel) (json_dumps x ++ String c r) = Some (x, String c r).
Proof.
  intros Hx Hc. destruct x; try contradiction.
  - apply scan_value_str_int; assumption.
  - apply scan_value_string.
Qed.

Lemma members_text_concat kvs rest :
  kvs <> [] ->
  String.concat ", " (map member kvs) ++ String "}" rest
  = members_text kvs rest.
Proof.
  induction kvs as [|kv kvs IH]; [congruence|]. intros _.
  destruct kvs as [|kv' kvs]; [reflexivity|].
  change (String.concat ", " (map member (kv :: kv' :: kvs)))
    with (member kv ++ ", " ++ String.concat ", " (map member (kv' :: kvs))).
  rewrite !append_assoc'. cbn [append]. rewrite IH by discriminate.
  reflexivity.
Qed.

Lemma scan_members_eq fuel s acc :
  scan_members (S fuel) s acc
  = match skip_ws s with
    | String "034" r =>
        match scan_string r with
        | Some (k, r1) =>
            match skip_ws r1 with
            | String ":" r2 =>
                match scan_value fuel r2 with
                | Some (v, r3) =>
                    match skip_ws r3 with
                    | String "," r4 => scan_members fuel r4 (dict_set k v acc)
                    | String "}" rest => Some (VDict (dict_set k v acc), rest)
                    | _ => None
                    end
                | None => None
                end
            | _ => None
            end
        | None => None
        end
    | _ => None
    end.
Proof. reflexivity. Qed.

Lemma scan_members_head fuel k x c r acc :
  flat x -> number_end c = true ->
  scan_members (S (S fuel)) (member (k, x) ++ String c r) acc
  = match skip_ws (String c r) with
    | String "," r4 => scan_members (S fuel) r4 (dict_set k x acc)
    | String "}" rest => Some (VDict (dict_set k x acc), rest)
    | _ => None
    end.
Proof.
  intros Hx Hc. rewrite scan_members_eq.
  unfold member, json_string. rewrite !append_assoc'.
  cbn [append dquote].
  change (skip_ws (String "034" ?s)) with (String "034" s). cbv beta iota.
  rewrite scan_string_quoted.
  change (skip_ws (String ":" ?s)) with (String ":" s). cbv beta iota.
  change (scan_value (S fuel) (String " " ?s)) with (scan_value (S fuel) s).
  rewrite scan_value_flat by assumption.
  reflexivity.
Qed.

Lemma scan_members_text kvs : forall fuel rest acc,
  kvs <> [] -> Forall (fun kv => flat (snd kv)) kvs ->
  (List.length kvs < fuel)%nat ->
  scan_members fuel (members_text kvs rest) acc
  = Some (VDict (rebuild kvs acc), rest).
Proof.
  induction kvs as [|[k x] kvs IH]; intros fuel rest acc Hne Hflat Hfuel;
    [congruence|].
  inversion Hflat as [|? ? Hx Hrest]; subst. cbn [snd] in Hx.
  destruct kvs as [|kv' kvs].
  - destruct fuel as [|[|fuel]]; cbn in Hfuel; try lia.
    cbn [members_text]. rewrite scan_members_head by (assumption || reflexivity).
    reflexivity.
  - destruct fuel as [|[|fuel]]; cbn in Hfuel; try lia.
    change (members_text ((k, x) :: kv' :: kvs) rest)
      with (member (k, x) ++ String "," (String " " (members_text (kv' :: kvs) rest))).
    rewrite scan_members_head by (assumption || reflexivity).
    change (skip_ws (String "," ?s)) with (String "," s). cbv beta iota.
    change (scan_members (S fuel) (String " " ?s) ?a)
      with (scan_members (S fuel) s a).
    rewrite IH; [reflexivity | discriminate | assumption | cbn in *; lia].
Qed.

Lemma members_length kvs :
  (List.length kvs <= String.length (String.concat ", " (map member kvs)))%nat.
Proof.
  induction kvs as [|kv kvs IH]; [cbn; lia|].
  assert (Hm : (1 <= String.length (member kv))%nat).
  { destruct kv as [k x]. unfold member, json_string.
    cbn. lia. }
  destruct kvs as [|kv' kvs]; [cbn in *; lia|].
  change (String.concat ", " (map member (kv :: kv' :: kvs)))
    with (member kv ++ ", " ++ String.concat ", " (map member (kv' :: kvs))).
  rewrite !length_append'. cbn [List.length] in *. lia.
Qed.

Lemma json_dumps_dict kvs :
  json_dumps (VDict kvs)
  = String "{" (String.concat ", " (map member kvs) ++ String "}" EmptyString).
Proof. reflexivity. Qed.

(** A non-empty object of strings and integers reads back as the
    dictionary its pairs build. *)
Lemma json_loads_flat kvs :
  kvs <> [] -> Forall (fun kv => flat (snd kv)) kvs ->
  json_loads (json_dumps (VDict kvs)) = Some (VDict (rebuild kvs [])).
Proof.
  intros Hne Hflat. unfold json_loads. rewrite json_dumps_dict.
  pose proof (members_length kvs) as Hlen.
  rewrite members_text_concat by assumption.
  rewrite <- (members_text_concat kvs EmptyString) in * by assumption.
  set (body := String.concat ", " (map member kvs) ++ String "}" EmptyString) in *.
  assert (Hbody : (List.length kvs < String.length body)%nat).
  { subst body. rewrite length_append'. cbn. lia. }
  assert (Hhead : exists c r, body = String c r /\ c <> "}"%char /\ is_ws c = false).
  { subst body. destruct kvs as [|[k x] kvs]; [congruence|].
    exists "034"%char.
    destruct kvs; eexists; (split; [|split; [discriminate|reflexivity]]);
      cbn [map String.concat member json_string dquote append]; reflexivity. }
  destruct Hhead as (c & r & Hb & Hc & Hws).
  cbn [String.length].
  change (scan_value (S (S (String.length body))) (String "{" body))
    with (match skip_ws body with
          | String "}" rest => Some (VDict [], rest)
          | _ => scan_members (S (String.length body)) body []
          end).
  assert (Hskip : skip_ws body = body).
  { rewrite Hb. cbn [skip_ws]. rewrite Hws. reflexivity. }
  rewrite Hskip.
  assert (Hgo : match body with
                | String "}" rest => Some (VDict [], rest)
                | _ => scan_members (S (String.length body)) body []
                end = scan_members (S (String.length body)) body []).
  { rewrite Hb at 1.
    destruct c as [[] [] [] [] [] [] [] []]; try reflexivity. congruence. }
  rewrite Hgo. subst body.
  rewrite members_text_concat at 2 by assumption.
  rewrite scan_members_text; [reflexivity | assumption | assumption | lia].
Qed.


Variable w : World.

Lemma log_record_flat c now record :
  log_record w c now record <> []
  /\ Forall (fun kv => flat (snd kv)) (log_record w c now record).
Proof.
  unfold log_record.
  destruct (exc_info record) as [e|];
    [|destruct (lookup "error_details" (extra record)) as [d|]];
    (split; [discriminate | cbn; repeat constructor]).
Qed.

Lemma log_record_rebuild c now record :
  rebuild (log_record w c now record) [] = log_record w c now record.
Proof.
  unfold log_record.
  destruct (exc_info record) as [e|];
    [|destruct (lookup "error_details" (extra record)) as [d|]];
    reflexivity.
Qed.

(** The line the JSON formatter writes parses back to the dictionary it
    was rendered from. *)
Lemma JSONFormatter_format_loads c now record :
  json_loads (JSONFormatter_format w c now record)
  = Some (VDict (log_record w c now record)).
Proof.
  unfold JSONFormatter_format.
  destruct (log_record_flat c now record) as [Hne Hflat].
  rewrite json_loads_flat by assumption.
  rewrite log_record_rebuild. reflexivity.
Qed.

(** C7.  A record rendered by the JSON formatter parses back as a JSON
    object that holds every fixed field with a value other than null, and
    whose "duration" is the string "0.0s" when the record was given no
    duration. *)
Theorem JSONFormatter_fixed_fields (c : Context) (now : Z)
    (record : LogRecord) :
  exists object,
    json_loads (JSONFormatter_format w c now record) = Some (VDict object)
    /\ (forall field, In field fixed_fields ->
                     exists x, lookup field object = Some x /\ x <> VNone)
    /\ (lookup "duration" (extra record) = None ->
        lookup "duration" object = Some (VStr "0.0s")).
Proof.
  exists (log_record w c now record).
  split; [apply JSONFormatter_format_loads|].
  unfold log_record.
  split.
  - intros field Hin. unfold fixed_fields in Hin.
    destruct (exc_info record) as [e|];
      [|destruct (lookup "error_details" (extra record)) as [d|]];
      repeat (destruct Hin as [<-|Hin];
              [eexists; split; [reflexivity|discriminate]|]);
      contradiction.
  - intros Hd. rewrite Hd.
    destruct (exc_info record) as [e|];
      [|destruct (lookup "error_details" (extra record)) as [d|]];
      reflexivity.
Qed.

(** C8.  In the parsed line, "error_details" is the formatted traceback
    of the attached exception whenever there is one, also when a string was
    supplied as well; without an exception it is the supplied string; with
    neither, the field is absent. *)
Theorem JSONFormatter_error_details (c : Context) (now : Z)
    (record : LogRecord) :
  exists object,
    json_loads (JSONFormatter_format w c now record) = Some (VDict object)
    /\ (forall e supplied,
           exc_info record = Some e ->
           lookup "error_details" (extra record) = Some supplied ->
           lookup "error_details" object = Some (VStr (format_exception e)))
    /\ (forall e,
           exc_info record = Some e ->
           lookup "error_details" object = Some (VStr (format_exception e)))
    /\ (forall supplied,
           exc_info record = None ->
           lookup "error_details" (extra record) = Some supplied ->
           lookup "error_details" object = Some (VStr supplied))
    /\ (exc_info record = None ->
        lookup "error_details" (extra record) = None ->
        lookup "error_details" object = None).
Proof.
  exists (log_record w c now record).
  split; [apply JSONFormatter_format_loads|].
  unfold log_record.
  repeat split.
  - intros e supplied -> _. reflexivity.
  - intros e ->. reflexivity.
  - intros supplied -> ->. reflexivity.
  - intros -> ->. reflexivity.
Qed.

End Decoding.

(** * The theorems at concrete inputs *)

(** A 2xx response whose body does not decode, met at the default
    threshold: the fetch writes the success record and then the error
    record, two records and not one. *)
Lemma make_nws_request_two_records :
  let w := sample_world no_env (always (respond 200 (Raise decode_error))) in
  let st := final (make_nws_request (rt := sample_runtime) w
                     (VStr "https://api.weather.gov/points/0.0,0.0")
                     initial_state) in
  List.length (emitted st) = 2%nat /\ List.length (emitted st) <> 1%nat.
Proof. vm_compute. split; [reflexivity | discriminate]. Qed.

Lemma make_nws_request_records_at_INFO_witness :
  let w := sample_world no_env (always (Raise timeout_error)) in
  List.length
    (emitted (final (make_nws_request (rt := sample_runtime) w
                       (VStr "https://api.weather.gov/points/0.0,0.0")
                       initial_state)))
  = 1%nat.
Proof.
  exact (proj1 (make_nws_request_records_at_INFO
                  (rt := sample_runtime)
                  (sample_world no_env (always (Raise timeout_error)))
                  "https://api.weather.gov/points/0.0,0.0" initial_state
                  eq_refl)
           timeout_error eq_refl).
Defined.

Lemma get_alerts_cases_witness :
  let reply upstream :=
    returned (get_alerts (rt := sample_runtime)
                (sample_world no_env (always upstream)) "CA" initial_state) in
  reply (respond 404 (Ret VNone))
  = Ret "Unable to fetch alerts or no alerts found."
  /\ reply (respond 200 (Ret (VDict [("title", VStr "Alerts")])))
     = Ret "Unable to fetch alerts or no alerts found."
  /\ reply (respond 200 (Ret (alerts_payload [])))
     = Ret "No active alerts for this state."
  /\ reply (respond 200 (Ret (alerts_payload [flood_feature])))
     = Ret (nl ++ "Event: Flood Warning" ++ nl
            ++ "Area: Unknown" ++ nl
            ++ "Severity: Unknown" ++ nl
            ++ "Description: No description available" ++ nl
            ++ "Instructions: No specific instructions provided" ++ nl).
Proof.
  cbv zeta. split; [|split; [|split]].
  - exact (proj1 (get_alerts_cases (rt := sample_runtime)
                    (sample_world no_env (always (respond 404 (Ret VNone))))
                    "CA" initial_state) eq_refl).
  - exact (proj1 (proj2 (get_alerts_cases (rt := sample_runtime)
                    (sample_world no_env
                       (always (respond 200
                                  (Ret (VDict [("title", VStr "Alerts")])))))
                    "CA" initial_state)) _ eq_refl eq_refl).
  - exact (proj1 (proj2 (proj2 (get_alerts_cases (rt := sample_runtime)
                    (sample_world no_env
                       (always (respond 200 (Ret (alerts_payload [])))))
                    "CA" initial_state))) _ eq_refl eq_refl).
  - exact (proj2 (proj2 (proj2 (get_alerts_cases (rt := sample_runtime)
                    (sample_world no_env
                       (always (respond 200
                                  (Ret (alerts_payload [flood_feature])))))
                    "CA" initial_state))) _ _ _ _ eq_refl eq_refl eq_refl).
Defined.

Lemma get_forecast_first_five_witness :
  exists blocks,
    returned (get_forecast (rt := sample_runtime)
                (sample_world no_env (forecast_upstream seven_periods))
                (S754_zero false) (S754_zero false) initial_state)
    = Ret (String.concat separator blocks)
    /\ List.length blocks = 5%nat.
Proof.
  eexists.
  eapply (get_forecast_first_five (rt := sample_runtime)
            (sample_world no_env (forecast_upstream seven_periods))
            (S754_zero false) (S754_zero false) initial_state);
    try reflexivity.
  cbn. lia.
Defined.

Lemma get_forecast_points_absent_witness :
  let w := sample_world no_env (always (Raise timeout_error)) in
  let run := get_forecast (rt := sample_runtime) w (S754_zero false)
               (S754_zero false) initial_state in
  returned run = Ret "Unable to fetch forecast data for this location."
  /\ requests (final run) = ["https://api.weather.gov/points/0.0,0.0"].
Proof.
  exact (get_forecast_points_absent (rt := sample_runtime)
           (sample_world no_env (always (Raise timeout_error)))
           (S754_zero false) (S754_zero false) initial_state eq_refl).
Defined.

Lemma operations_never_raise_witness :
  returned (get_alerts (rt := sample_runtime)
              (sample_world no_env
                 (always (respond 200 (Ret (alerts_payload [VDict []])))))
              "CA" initial_state)
  = Ret "An error occurred while fetching alerts."
  /\ returned (get_forecast (rt := sample_runtime)
                 (sample_world no_env
                    (always (respond 200 (Ret (VDict [("title", VNone)])))))
                 (S754_zero false) (S754_zero false) initial_state)
     = Ret "An error occurred while fetching forecast.".
Proof.
  destruct (operations_never_raise (rt := sample_runtime)
              (sample_world no_env
                 (always (respond 200 (Ret (alerts_payload [VDict []]))))))
    as (_ & _ & Halerts & _).
  destruct (operations_never_raise (rt := sample_runtime)
              (sample_world no_env
                 (always (respond 200 (Ret (VDict [("title", VNone)]))))))
    as (_ & _ & _ & Hforecast).
  split.
  - exact (Halerts "CA" initial_state _ eq_refl).
  - exact (Hforecast (S754_zero false) (S754_zero false) initial_state _
             eq_refl).
Defined.

Lemma get_alerts_feature_without_properties_witness :
  returned (get_alerts (rt := sample_runtime)
              (sample_world no_env
                 (always (respond 200
                            (Ret (alerts_payload
                                    [flood_feature; VDict []])))))
              "CA" initial_state)
  = Ret "An error occurred while fetching alerts.".
Proof.
  exact (proj1 (proj1 (get_alerts_feature_without_properties
                  (rt := sample_runtime)
                  (sample_world no_env
                     (always (respond 200
                                (Ret (alerts_payload
                                        [flood_feature; VDict []])))))
                  "CA" initial_state)
                 _ _ [] eq_refl eq_refl (or_intror (or_introl eq_refl))
                 eq_refl)).
Defined.

Lemma JSONFormatter_fixed_fields_witness :
  exists object,
    json_loads (rt := sample_runtime)
      (JSONFormatter_format (rt := sample_runtime)
         (sample_world env_production (always (Raise timeout_error)))
         no_context 0 plain_record)
    = Some (VDict object)
    /\ (exists x, lookup "timestamp" object = Some x /\ x <> VNone)
    /\ lookup "duration" object = Some (VStr "0.0s").
Proof.
  destruct (JSONFormatter_fixed_fields (rt := sample_runtime)
              (sample_world env_production (always (Raise timeout_error)))
              no_context 0 plain_record)
    as (object & Hloads & Hfields & Hduration).
  exists object. split; [exact Hloads|]. split.
  - apply Hfields. left. reflexivity.
  - apply Hduration. reflexivity.
Defined.

Lemma JSONFormatter_error_details_witness :
  exists object,
    json_loads (rt := sample_runtime)
      (JSONFormatter_format (rt := sample_runtime)
         (sample_world env_production (always (Raise timeout_error)))
         no_context 0 sample_record)
    = Some (VDict object)
    /\ lookup "error_details" object
       = Some (VStr (format_exception (Runtime := sample_runtime)
                       (mkExn (HTTPStatusError 404) "404 Not Found"))).
Proof.
  destruct (JSONFormatter_error_details (rt := sample_runtime)
              (sample_world env_production (always (Raise timeout_error)))
              no_context 0 sample_record)
    as (object & Hloads & Hboth & _).
  exists object. split; [exact Hloads|].
  exact (Hboth _ _ eq_refl eq_refl).
Defined.

(** * Further properties of the fetcher and the operations *)

Section Fetcher_more.
Context {rt : Runtime}.
Variable w : World.
Local Arguments append : simpl never.

(** X4.  A fetch draws exactly one identifier and installs it as the
    request id; the correlation id and the user id stay as they were. *)
Theorem make_nws_request_installs_request_id (url : value) (st : State) :
  let st' := final (make_nws_request w url st) in
  request_id (context st') = Some (uuid4 w (uuids_drawn st))
  /\ correlation_id (context st') = correlation_id (context st)
  /\ user_id (context st') = user_id (context st)
  /\ uuids_drawn st' = S (uuids_drawn st).
Proof.
  cbv zeta. split; [|split; [|split]].
  - fetch_cases; reflexivity.
  - fetch_cases; reflexivity.
  - fetch_cases; reflexivity.
  - fetch_cases; reflexivity.
Qed.

(** X5.  A fetch sends exactly one GET, to the URL it was given, whatever
    the outcome: a failed request is not retried.  A URL that is not a
    string sends nothing and gives [None]. *)
Theorem make_nws_request_sends_once (st : State) :
  (forall url : string,
      requests (final (make_nws_request w (VStr url) st))
      = (requests st ++ [url])%list)
  /\ (forall url : value,
         (forall u, url <> VStr u) ->
         requests (final (make_nws_request w url st)) = requests st
         /\ returned (make_nws_request w url st) = Ret VNone).
Proof.
  split.
  - intros url. apply (make_nws_request_requests w (VStr url)).
  - intros url Hurl. rewrite make_nws_request_requests,
      make_nws_request_returned.
    destruct url; try (rewrite List.app_nil_r; split; reflexivity).
    exfalso. exact (Hurl s eq_refl).
Qed.

End Fetcher_more.

Section Operations_more.
Context {rt : Runtime}.
Variable w : World.

Lemma get_forecast_on_document latitude longitude st forecast :
  forecast_document w (List.length (requests st)) latitude longitude
  = Some forecast ->
  returned (get_forecast w latitude longitude st)
  = Ret (match periods_body forecast with
         | Ret text => text
         | Raise _ => "An error occurred while fetching forecast."
         end)
  /\ exists target,
       requests (final (get_forecast w latitude longitude st))
       = (requests st ++ [points_url latitude longitude; target])%list.
Proof.
  unfold forecast_document. intros H.
  rewrite get_forecast_returned, get_forecast_requests.
  unfold fetch_result, forecast_reply, forecast_body, forecast_followup.
  destruct (truthy (fetch_outcome _)); [|discriminate]. cbn [negb].
  destruct (forecast_target _) as [[| | | |target| |]|]; try discriminate.
  injection H as <-. cbn [obind]. unfold fetch_result.
  split; [reflexivity | eexists; reflexivity].
Qed.

(** X8.  [get_alerts] sends exactly one GET, to the alerts resource of the
    state it was given, on every path through the operation. *)
Theorem get_alerts_sends_once (state : string) (st : State) :
  requests (final (get_alerts w state st))
  = (requests st
       ++ [("https://api.weather.gov/alerts/active/area/" ++ state)%string])%list.
Proof. apply get_alerts_requests. Qed.

(** X9.  [get_forecast] first asks for the points resource of the
    coordinates; it then asks for exactly the URL that the points document
    gives under properties.forecast, and only when that document is truthy
    and the entry is a string.  It never sends more than two requests. *)
Theorem get_forecast_request_trace (latitude longitude : spec_float)
    (st : State) :
  let points :=
    fetch_outcome
      (http_get w (List.length (requests st))
         (points_url latitude longitude)) in
  let sent := requests (final (get_forecast w latitude longitude st)) in
  (forall target,
      truthy points = true ->
      forecast_target points = Ret (VStr target) ->
      sent = (requests st ++ [points_url latitude longitude; target])%list)
  /\ ((truthy points = false
       \/ forall target, forecast_target points <> Ret (VStr target)) ->
      sent = (requests st ++ [points_url latitude longitude])%list)
  /\ (List.length sent <= List.length (requests st) + 2)%nat.
Proof.
  cbv zeta. rewrite get_forecast_requests. unfold fetch_result.
  unfold forecast_followup.
  set (points := fetch_outcome _).
  split; [|split].
  - intros target -> ->. reflexivity.
  - intros [-> | H]; [reflexivity|].
    destruct (truthy points); [|reflexivity]. cbn [negb].
    destruct (forecast_target points) as [[| | | |target| |]|];
      try reflexivity.
    exfalso. exact (H target eq_refl).
  - rewrite List.length_app.
    destruct (truthy points); cbn [negb]; [|cbn; lia].
    destruct (forecast_target points) as [[| | | |target| |]|]; cbn; lia.
Qed.

(** X10.  When the second fetch of [get_forecast] gives [None] or another
    falsy document, the reply is "Unable to fetch detailed forecast.". *)
Theorem get_forecast_detail_absent (latitude longitude : spec_float)
    (st : State) (forecast : value) :
  forecast_document w (List.length (requests st)) latitude longitude
  = Some forecast ->
  truthy forecast = false ->
  returned (get_forecast w latitude longitude st)
  = Ret "Unable to fetch detailed forecast.".
Proof.
  intros Hdoc Hfalsy.
  destruct (get_forecast_on_document _ _ _ _ Hdoc) as [-> _].
  unfold periods_body. rewrite Hfalsy. reflexivity.
Qed.

(** X11.  When the forecast document lists five periods or fewer, every
    one of them is formatted; with no period at all the reply is the empty
    string. *)
Theorem get_forecast_few_periods (latitude longitude : spec_float)
    (st : State) (forecast properties : value) (periods : list value) :
  forecast_document w (List.length (requests st)) latitude longitude
  = Some forecast ->
  truthy forecast = true ->
  getitem forecast "properties" = Ret properties ->
  getitem properties "periods" = Ret (VList periods) ->
  (List.length periods <= 5)%nat ->
  (forall blocks,
      omap format_period periods = Ret blocks ->
      returned (get_forecast w latitude longitude st)
      = Ret (String.concat separator blocks)
      /\ List.length blocks = List.length periods)
  /\ (periods = [] ->
      returned (get_forecast w latitude longitude st) = Ret EmptyString).
Proof.
  intros Hdoc Htruthy Hprops Hperiods Hlen.
  destruct (get_forecast_on_document _ _ _ _ Hdoc) as [-> _].
  unfold periods_body. rewrite Htruthy, Hprops. cbn -[omap firstn].
  rewrite Hperiods. cbn -[omap firstn].
  rewrite firstn_all2 by exact Hlen.
  split.
  - intros blocks Hblocks. rewrite Hblocks. split; [reflexivity|].
    exact (omap_length _ _ _ Hblocks).
  - intros ->. reflexivity.
Qed.

(** X12.  A "features" entry that is present but falsy, be it an empty
    list, null, zero, false, an empty string or an empty object, gives "No
    active alerts for this state.". *)
Theorem get_alerts_falsy_features (state : string) (st : State)
    (d : list (string * value)) (features : value) :
  fetch_outcome (http_get w (List.length (requests st)) (alerts_url state))
  = VDict d ->
  lookup "features" d = Some features ->
  truthy features = false ->
  returned (get_alerts w state st) = Ret "No active alerts for this state.".
Proof.
  intros Hdata Hlookup Hfalsy.
  rewrite get_alerts_returned. unfold fetch_result. rewrite Hdata.
  unfold alerts_reply, alerts_body.
  destruct d as [|kv d]; [discriminate|].
  cbn -[lookup]. rewrite Hlookup. cbn. rewrite Hfalsy. reflexivity.
Qed.

(** X13.  [format_alert] succeeds exactly on an object whose "properties"
    entry is an object.  It raises [KeyError] on an object without the
    entry, [AttributeError] when the entry is not an object, and
    [TypeError] on a feature that is not an object. *)
Theorem format_alert_succeeds_iff (feature : value) :
  ((exists text, format_alert feature = Ret text)
   <-> exists kv props,
         feature = VDict kv /\ lookup "properties" kv = Some (VDict props))
  /\ (forall kv, feature = VDict kv -> lookup "properties" kv = None ->
                 exists e, format_alert feature = Raise e
                           /\ exn_class_of e = KeyError)
  /\ (forall kv x, feature = VDict kv -> lookup "properties" kv = Some x ->
                   (forall props, x <> VDict props) ->
                   exists e, format_alert feature = Raise e
                             /\ exn_class_of e = AttributeError)
  /\ ((forall kv, feature <> VDict kv) ->
      exists e, format_alert feature = Raise e
                /\ exn_class_of e = TypeError).
Proof.
  split; [split|split; [|split]].
  - intros [text H]. unfold format_alert in H.
    destruct feature as [| | | | | |kv]; try discriminate.
    cbn -[lookup] in H.
    destruct (lookup "properties" kv) as [[| | | | | |props]|] eqn:E;
      cbn in H; try discriminate.
    exists kv, props. split; [reflexivity | exact E].
  - intros (kv & props & -> & H). unfold format_alert.
    cbn -[lookup]. rewrite H. cbn. eexists. reflexivity.
  - intros kv -> H. unfold format_alert. cbn -[lookup]. rewrite H.
    eexists. split; reflexivity.
  - intros kv x -> H Hx. unfold format_alert. cbn -[lookup]. rewrite H.
    destruct x; cbn; try (eexists; split; reflexivity).
    exfalso. exact (Hx d eq_refl).
  - intros H. destruct feature; cbn; try (eexists; split; reflexivity).
    exfalso. exact (H d eq_refl).
Qed.

(** X14.  The default text of a field is used only when its key is
    missing: a key that is present with the value null is rendered as
    "None". *)
Theorem format_alert_null_instruction (props : list (string * value)) :
  (lookup "instruction" props = Some VNone ->
   exists before,
     format_alert (feature_of props)
     = Ret (before ++ "Instructions: None" ++ nl))
  /\ (lookup "instruction" props = None ->
      exists before,
        format_alert (feature_of props)
        = Ret (before ++ "Instructions: No specific instructions provided"
               ++ nl)).
Proof.
  set (before :=
         nl ++ "Event: "
         ++ py_str (match lookup "event" props with
                    | Some x => x | None => VStr "Unknown" end) ++ nl
         ++ "Area: "
         ++ py_str (match lookup "areaDesc" props with
                    | Some x => x | None => VStr "Unknown" end) ++ nl
         ++ "Severity: "
         ++ py_str (match lookup "severity" props with
                    | Some x => x | None => VStr "Unknown" end) ++ nl
         ++ "Description: "
         ++ py_str (match lookup "description" props with
                    | Some x => x
                    | None => VStr "No description available" end) ++ nl).
  split; intros H; exists before; subst before;
    unfold format_alert, feature_of, getitem;
    change (lookup "properties" [("properties", VDict props)])
      with (Some (VDict props));
    cbn -[lookup]; rewrite H; unfold nl; cbn -[lookup];
    repeat (rewrite !append_assoc'; cbn -[lookup]); reflexivity.
Qed.

End Operations_more.

Section Periods.
Context {rt : Runtime}.
Variable w : World.

Lemma format_period_missing_key kv key :
  In key period_keys -> lookup key kv = None ->
  exists e, format_period (VDict kv) = Raise e /\ exn_class_of e = KeyError.
Proof.
  unfold period_keys. intros Hin H. unfold format_period, getitem.
  repeat (destruct Hin as [<- | Hin]); try contradiction;
    repeat match goal with
      | |- context [lookup ?k kv] =>
          lazymatch goal with
          | E : lookup k kv = _ |- _ => rewrite E
          | _ => destruct (lookup k kv) eqn:?
          end; cbn [obind]
      end;
    try congruence; eexists; split; reflexivity.
Qed.

(** X15.  A period among the first five that is an object without one of
    the six keys the loop reads makes the whole reply "An error occurred
    while fetching forecast.". *)
Theorem get_forecast_malformed_period (latitude longitude : spec_float)
    (st : State) (forecast properties : value) (periods : list value)
    (kv : list (string * value)) (key : string) :
  forecast_document w (List.length (requests st)) latitude longitude
  = Some forecast ->
  truthy forecast = true ->
  getitem forecast "properties" = Ret properties ->
  getitem properties "periods" = Ret (VList periods) ->
  In (VDict kv) (firstn 5 periods) ->
  In key period_keys ->
  lookup key kv = None ->
  returned (get_forecast w latitude longitude st)
  = Ret "An error occurred while fetching forecast.".
Proof.
  intros Hdoc Htruthy Hprops Hperiods Hin Hkey Hmissing.
  destruct (get_forecast_on_document _ _ _ _ _ Hdoc) as [-> _].
  unfold periods_body. rewrite Htruthy, Hprops. cbn -[omap firstn].
  rewrite Hperiods. cbn -[omap firstn].
  destruct (format_period_missing_key kv key Hkey Hmissing) as (e & He & _).
  destruct (omap_raises format_period _ _ _ Hin He) as [e' ->].
  reflexivity.
Qed.

End Periods.

Section Independence.
Context {rt : Runtime}.

Lemma fetch_result_ext (w w' : World) n url :
  (forall k u, http_get w k u = http_get w' k u) ->
  fetch_result w n url = fetch_result w' n url.
Proof.
  intros H. unfold fetch_result. destruct url; try reflexivity.
  rewrite H. reflexivity.
Qed.

(** X16.  What the fetcher and the two operations return depends on the
    upstream answers and on how many requests were sent before, and on
    nothing else: not on the environment variables, the threshold or the
    formatter, the clock, the identifiers drawn, the call context or the
    records written so far. *)
Theorem replies_depend_on_upstream_only (w w' : World) (st st' : State) :
  (forall n u, http_get w n u = http_get w' n u) ->
  List.length (requests st) = List.length (requests st') ->
  (forall url,
      returned (make_nws_request w url st)
      = returned (make_nws_request w' url st'))
  /\ (forall state,
         returned (get_alerts w state st)
         = returned (get_alerts w' state st'))
  /\ (forall latitude longitude,
         returned (get_forecast w latitude longitude st)
         = returned (get_forecast w' latitude longitude st')).
Proof.
  intros Hsame Hlen. split; [|split].
  - intros url. rewrite !make_nws_request_returned, Hlen.
    rewrite (fetch_result_ext w w') by assumption. reflexivity.
  - intros state. rewrite !get_alerts_returned, Hlen.
    rewrite (fetch_result_ext w w') by assumption. reflexivity.
  - intros latitude longitude. rewrite !get_forecast_returned, Hlen.
    rewrite (fetch_result_ext w w') by assumption.
    unfold forecast_reply, forecast_body.
    destruct (truthy _); cbn [negb]; [|reflexivity].
    destruct (forecast_target _); cbn [obind]; [|reflexivity].
    rewrite (fetch_result_ext w w') by assumption. reflexivity.
Qed.

End Independence.

(** * The identifiers on the lines written *)

Section Stamps.
Context {rt : Runtime}.
Variable w : World.
Local Arguments append : simpl never.

Lemma write_record_emitted level lname msg exc extras func line st :
  emitted (write_record w level lname msg exc extras func line st)
  = (emitted st
     ++ if isEnabledFor w level
        then [(made_record w level lname msg exc extras func line st,
               written_line w
                 (made_record w level lname msg exc extras func line st) st)]
        else [])%list.
Proof.
  unfold write_record, written_line, made_record.
  destruct (isEnabledFor w level), (production w);
    rewrite ?List.app_nil_r; reflexivity.
Qed.

Lemma extends_refl P st st' :
  emitted st' = emitted st -> extends w P st st'.
Proof.
  intros H. exists []. rewrite H, List.app_nil_r. split; constructor.
Qed.

Lemma extends_trans P st1 st2 st3 :
  extends w P st1 st2 -> extends w P st2 st3 -> extends w P st1 st3.
Proof.
  intros (a & Ha & Fa) (b & Hb & Fb). exists (a ++ b)%list.
  rewrite Hb, Ha, List.app_assoc. split; [reflexivity|].
  apply Forall_app. split; assumption.
Qed.

Lemma extends_same P st1 st2 st3 :
  emitted st3 = emitted st2 -> extends w P st1 st2 -> extends w P st1 st3.
Proof.
  intros H (a & Ha & Fa). exists a. rewrite H. split; assumption.
Qed.

Lemma extends_write P st1 st2 level lname msg exc extras func line :
  production w = true ->
  P (context st2) ->
  extends w P st1 st2 ->
  extends w P st1 (write_record w level lname msg exc extras func line st2).
Proof.
  intros Hprod HP H. eapply extends_trans; [exact H|].
  eexists. split; [apply write_record_emitted|].
  destruct (isEnabledFor w level); constructor; [|constructor].
  unfold rendered_under, written_line. rewrite Hprod. cbn [fst snd].
  eexists _, _. split; [exact HP | reflexivity].
Qed.

Ltac stamp :=
  repeat first
    [ apply extends_write;
      [ assumption
      | autorewrite with run; cbn; try assumption; try reflexivity
      | ]
    | match goal with
      | |- extends _ _ _ (mkState _ _ _ _ (emitted ?X)) =>
          apply (extends_same _ _ X); [reflexivity|]
      end
    | apply extends_refl; reflexivity
    | assumption ].

Lemma make_nws_request_extends P url st :
  production w = true ->
  P (mkContext (correlation_id (context st))
       (Some (uuid4 w (uuids_drawn st))) (user_id (context st))) ->
  extends w P st (final (make_nws_request w url st)).
Proof.
  intros Hprod HP.
  unfold final, make_nws_request.
  destruct url; run.
  all: try (stamp; fail).
  destruct (http_get w _ s) as [r|e]; cbn.
  - destruct (is_success r); cbn.
    + destruct (json r) as [v|e]; cbn.
      * stamp.
      * destruct (exn_class_of e); cbn; stamp.
    + stamp.
  - destruct (exn_class_of e); cbn; stamp.
Qed.

Ltac fetch_stamp corr :=
  match goal with
  | |- context [make_nws_request w ?u ?s] =>
      let Hext := fresh "Hext" in
      let Hcor := fresh "Hcor" in
      assert (Hext : extends w (has_correlation corr) s
                       (final (make_nws_request w u s)))
        by (apply make_nws_request_extends;
            [assumption
            | unfold has_correlation; autorewrite with run; cbn;
              try assumption; reflexivity]);
      pose proof (make_nws_request_correlation w u s) as Hcor;
      rewrite (make_nws_request_run w u s);
      let st' := fresh "st" in
      generalize dependent (final (make_nws_request w u s));
      intros st' Hext Hcor;
      autorewrite with run in Hcor; cbn in Hcor; cbn
  end.

Ltac stamp' :=
  repeat first
    [ apply extends_write;
      [ assumption
      | unfold has_correlation; autorewrite with run; cbn;
        try assumption; try reflexivity; congruence
      | ]
    | match goal with
      | |- extends _ _ _ (mkState _ _ _ _ (emitted ?X)) =>
          apply (extends_same _ _ X); [reflexivity|]
      end
    | match goal with
      | H : extends _ _ ?a ?b |- extends _ _ _ ?b =>
          apply (extends_trans _ _ a b); [|exact H]
      end
    | apply extends_refl; reflexivity
    | assumption ].

Ltac branch' x := destruct x; cbn; try (stamp'; fail).

Lemma get_alerts_extends state st :
  production w = true ->
  extends w (has_correlation (uuid4 w (uuids_drawn st))) st
    (final (get_alerts w state st)).
Proof.
  intros Hprod. unfold final, get_alerts. run.
  fetch_stamp (uuid4 w (uuids_drawn st)).
  set (data := fetch_result _ _ _) in *. clearbody data.
  branch' (truthy data).
  branch' (contains "features" data). branch' a.
  branch' (getitem data "features"). branch' (truthy a).
  branch' (iterate a). branch' (omap format_alert a0).
Qed.

Lemma get_forecast_extends latitude longitude st :
  production w = true ->
  extends w (has_correlation (uuid4 w (uuids_drawn st))) st
    (final (get_forecast w latitude longitude st)).
Proof.
  intros Hprod. unfold final, get_forecast. run.
  fetch_stamp (uuid4 w (uuids_drawn st)).
  set (data := fetch_result _ _ _) in *. clearbody data.
  branch' (truthy data).
  branch' (getitem data "properties"). branch' (getitem a "forecast").
  fetch_stamp (uuid4 w (uuids_drawn st)).
  set (forecast_data := fetch_result _ _ _) in *. clearbody forecast_data.
  branch' (truthy forecast_data).
  branch' (getitem forecast_data "properties").
  branch' (getitem a1 "periods"). branch' (slice_to 5 a2).
  branch' (iterate a3). branch' (omap format_period a4).
Qed.

Lemma rendered_carries_correlation corr entry :
  rendered_under w (has_correlation corr) entry ->
  carries "correlation_id" corr entry.
Proof.
  intros (c & now & Hc & Hline). unfold carries. rewrite Hline.
  rewrite JSONFormatter_format_loads. eexists. split; [reflexivity|].
  unfold has_correlation in Hc. unfold log_record, get_correlation_id.
  rewrite Hc.
  destruct (exc_info (fst entry));
    [|destruct (lookup "error_details" (extra (fst entry)))]; reflexivity.
Qed.

Lemma rendered_carries_request req entry :
  rendered_under w (has_request req) entry ->
  carries "request_id" req entry.
Proof.
  intros (c & now & Hc & Hline). unfold carries. rewrite Hline.
  rewrite JSONFormatter_format_loads. eexists. split; [reflexivity|].
  unfold has_request in Hc. unfold log_record, get_request_id.
  rewrite Hc.
  destruct (exc_info (fst entry));
    [|destruct (lookup "error_details" (extra (fst entry)))]; reflexivity.
Qed.

(** X17.  In production mode every line an operation writes, its own and
    those of the fetches it makes, parses to a JSON object whose
    "correlation_id" is the identifier the operation drew when it began;
    the records written before the operation are left as they were. *)
Theorem operations_stamp_correlation_id (st : State) :
  production w = true ->
  let corr := uuid4 w (uuids_drawn st) in
  (forall state, exists new,
      emitted (final (get_alerts w state st)) = (emitted st ++ new)%list
      /\ Forall (carries "correlation_id" corr) new)
  /\ (forall latitude longitude, exists new,
         emitted (final (get_forecast w latitude longitude st))
         = (emitted st ++ new)%list
         /\ Forall (carries "correlation_id" corr) new).
Proof.
  intros Hprod corr. split.
  - intros state.
    destruct (get_alerts_extends state st Hprod) as (new & Hnew & Hall).
    exists new. split; [exact Hnew|].
    eapply Forall_impl; [|exact Hall].
    intros entry. apply rendered_carries_correlation.
  - intros latitude longitude.
    destruct (get_forecast_extends latitude longitude st Hprod)
      as (new & Hnew & Hall).
    exists new. split; [exact Hnew|].
    eapply Forall_impl; [|exact Hall].
    intros entry. apply rendered_carries_correlation.
Qed.

(** X18.  In production mode every line a fetch writes carries the request
    id that this fetch drew, and the correlation id that was current when
    the fetch began. *)
Theorem make_nws_request_stamps_request_id (url : value) (st : State) :
  production w = true ->
  exists new,
    emitted (final (make_nws_request w url st)) = (emitted st ++ new)%list
    /\ Forall (carries "request_id" (uuid4 w (uuids_drawn st))) new
    /\ (forall corr, correlation_id (context st) = Some corr ->
                     Forall (carries "correlation_id" corr) new).
Proof.
  intros Hprod.
  destruct (make_nws_request_extends
              (fun c => has_request (uuid4 w (uuids_drawn st)) c
                        /\ correlation_id c = correlation_id (context st))
              url st Hprod)
    as (new & Hnew & Hall).
  { split; reflexivity. }
  exists new. split; [exact Hnew|]. split.
  - eapply Forall_impl; [|exact Hall].
    intros entry (c & now & [Hc _] & Hline).
    apply rendered_carries_request. exists c, now. split; assumption.
  - intros corr Hcorr. eapply Forall_impl; [|exact Hall].
    intros entry (c & now & [_ Hc] & Hline).
    apply rendered_carries_correlation. exists c, now.
    split; [|assumption]. unfold has_correlation. congruence.
Qed.
End Stamps.

(** * What the fetcher writes when it fails *)

Section Failure_records.
Context {rt : Runtime}.
Variable w : World.
Local Arguments append : simpl never.

(** X6.  After a response whose status is not 2xx, and with ERROR records
    enabled, the last record the fetch writes is an ERROR record of
    [make_nws_request] that carries the raised status error as its
    exception, the status code as text under "error_code" and the request
    id of this fetch. *)
Theorem make_nws_request_logs_status_error (url : string) (st : State)
    (r : Response) :
  http_get w (List.length (requests st)) url = Ret r ->
  is_success r = false ->
  isEnabledFor w ERROR = true ->
  exists before record line,
    emitted (final (make_nws_request w (VStr url) st))
    = (before ++ [(record, line)])%list
    /\ levelname record = "ERROR"
    /\ funcName record = "make_nws_request"
    /\ message record = "HTTP error occurred: " ++ status_error r
    /\ exc_info record
       = Some (mkExn (HTTPStatusError (status_code r)) (status_error r))
    /\ lookup "error_code" (extra record) = Some (str_int (status_code r))
    /\ lookup "request_id" (extra record) = Some (uuid4 w (uuids_drawn st)).
Proof.
  intros Hget Hfail Herr.
  unfold final, make_nws_request. run. rewrite Hget. cbn.
  rewrite Hfail. cbn.
  rewrite write_record_emitted, Herr.
  eexists _, _, _. split; [reflexivity|].
  repeat split.
Qed.

(** X7.  The failure kinds give the same return value but different
    records: a timeout is logged as "Timeout error occurred: ...", any other
    exception of the client as "An unexpected error occurred: ...", both
    with the exception attached and without an "error_code". *)
Theorem make_nws_request_failure_messages (url : string) (st : State)
    (e : exn) :
  http_get w (List.length (requests st)) url = Raise e ->
  isEnabledFor w ERROR = true ->
  exists before record line,
    emitted (final (make_nws_request w (VStr url) st))
    = (before ++ [(record, line)])%list
    /\ levelname record = "ERROR"
    /\ exc_info record = Some e
    /\ (exn_class_of e = TimeoutException ->
        message record = "Timeout error occurred: " ++ exn_str e
        /\ lookup "error_code" (extra record) = None)
    /\ (forall cls, exn_class_of e = OtherException cls ->
        message record = "An unexpected error occurred: " ++ exn_str e
        /\ lookup "error_code" (extra record) = None).
Proof.
  intros Hget Herr.
  unfold final, make_nws_request. run. rewrite Hget. cbn.
  destruct (exn_class_of e) eqn:E; cbn;
    rewrite write_record_emitted, Herr;
    (eexists _, _, _; split; [reflexivity|]);
    repeat split; intros; try discriminate; reflexivity.
Qed.

(** X19.  How many records a fetch writes at the other thresholds: none
    above ERROR; at DEBUG two on every outcome and three when a 2xx body
    fails to decode; between INFO and ERROR none for a success and one for
    a failure. *)
Theorem make_nws_request_records_by_threshold (url : string) (st : State)
    (threshold : Z) :
  effective_level w = Some threshold ->
  let met := http_get w (List.length (requests st)) url in
  let before := List.length (emitted st) in
  let after :=
    List.length (emitted (final (make_nws_request w (VStr url) st))) in
  (ERROR < threshold -> after = before)
  /\ (threshold <= DEBUG ->
      (forall e, met = Raise e -> after = (before + 2)%nat)
      /\ (forall r, met = Ret r -> is_success r = false ->
                    after = (before + 2)%nat)
      /\ (forall r v, met = Ret r -> is_success r = true ->
                      json r = Ret v -> after = (before + 2)%nat)
      /\ (forall r e, met = Ret r -> is_success r = true ->
                      json r = Raise e -> after = (before + 3)%nat))
  /\ (INFO < threshold -> threshold <= ERROR ->
      (forall r v, met = Ret r -> is_success r = true -> json r = Ret v ->
                   after = before)
      /\ (forall e, met = Raise e -> after = (before + 1)%nat)
      /\ (forall r, met = Ret r -> is_success r = false ->
                    after = (before + 1)%nat)).
Proof.
  intros Hlevel met before after. subst met before after.
  rewrite make_nws_request_count. unfold records_of_fetch, isEnabledFor.
  rewrite Hlevel. unfold DEBUG, INFO, ERROR.
  split; [|split].
  - intros H.
    replace (threshold <=? 10) with false by (symmetry; apply Z.leb_gt; lia).
    replace (threshold <=? 20) with false by (symmetry; apply Z.leb_gt; lia).
    replace (threshold <=? 40) with false by (symmetry; apply Z.leb_gt; lia).
    destruct (http_get w _ url) as [r|e]; [|lia].
    destruct (is_success r); [|lia]. destruct (json r); lia.
  - intros H.
    replace (threshold <=? 10) with true by (symmetry; apply Z.leb_le; lia).
    replace (threshold <=? 20) with true by (symmetry; apply Z.leb_le; lia).
    replace (threshold <=? 40) with true by (symmetry; apply Z.leb_le; lia).
    split; [|split; [|split]].
    + intros e ->. lia.
    + intros r -> ->. lia.
    + intros r v -> -> ->. lia.
    + intros r e -> -> ->. lia.
  - intros H1 H2.
    replace (threshold <=? 10) with false by (symmetry; apply Z.leb_gt; lia).
    replace (threshold <=? 20) with false by (symmetry; apply Z.leb_gt; lia).
    replace (threshold <=? 40) with true by (symmetry; apply Z.leb_le; lia).
    split; [|split].
    + intros r v -> -> ->. lia.
    + intros e ->. lia.
    + intros r -> ->. lia.
Qed.
End Failure_records.

(** * The rendered line *)







Section Lines.
Context {rt : Runtime}.
Variable w : World.





(** X3.  The rendered line carries the three identifiers of the call
    context, each falling back to its default while unset (the identifiers
    drawn when the module was loaded, "unknown" for the user), and the
    environment name, version and host from the environment variables, with
    "development", "0.1.0" and "localhost" when they are unset. *)
Theorem JSONFormatter_enrichment (c : Context) (now : Z)
    (record : LogRecord) :
  exists object,
    json_loads (JSONFormatter_format w c now record) = Some (VDict object)
    /\ lookup "correlation_id" object
       = Some (VStr (match correlation_id c with
                     | Some id => id
                     | None => default_correlation_id w
                     end))
    /\ lookup "request_id" object
       = Some (VStr (match request_id c with
                     | Some id => id
                     | None => default_request_id w
                     end))
    /\ lookup "user_id" object
       = Some (VStr (match user_id c with
                     | Some id => id
                     | None => "unknown"
                     end))
    /\ lookup "environment" object
       = Some (VStr (match getenv w "ENV" with
                     | Some s => s
                     | None => "development"
                     end))
    /\ lookup "app_version" object
       = Some (VStr (match getenv w "APP_VERSION" with
                     | Some s => s
                     | None => "0.1.0"
                     end))
    /\ lookup "host" object
       = Some (VStr (match getenv w "HOSTNAME" with
                     | Some s => s
                     | None => "localhost"
                     end)).
Proof.
  exists (log_record w c now record).
  split; [apply JSONFormatter_format_loads|].
  unfold log_record.
  destruct (exc_info record) as [e|];
    [|destruct (lookup "error_details" (extra record)) as [d|]];
    repeat split.
Qed.
End Lines.

(** * The further properties at concrete inputs *)


Lemma make_nws_request_sends_once_witness :
  requests (final (make_nws_request (rt := sample_runtime)
                     (quiet_world (Raise timeout_error)) (VInt 7)
                     initial_state))
  = []
  /\ returned (make_nws_request (rt := sample_runtime)
                 (quiet_world (Raise timeout_error)) (VInt 7) initial_state)
     = Ret VNone.
Proof.
  apply (proj2 (make_nws_request_sends_once (rt := sample_runtime)
                  (quiet_world (Raise timeout_error)) initial_state)
           (VInt 7)).
  intros u. discriminate.
Defined.

Lemma make_nws_request_logs_status_error_witness :
  exists before record line,
    emitted (final (make_nws_request (rt := sample_runtime)
                      (quiet_world (respond 404 (Ret VNone)))
                      (VStr "https://api.weather.gov/alerts/active/area/XX")
                      initial_state))
    = (before ++ [(record, line)])%list
    /\ lookup "error_code" (extra record) = Some "404".
Proof.
  destruct (make_nws_request_logs_status_error (rt := sample_runtime)
              (quiet_world (respond 404 (Ret VNone)))
              "https://api.weather.gov/alerts/active/area/XX" initial_state
              (mkResponse 404 "status error" (Ret VNone))
              eq_refl eq_refl eq_refl)
    as (before & record & line & Hlog & _ & _ & _ & _ & Hcode & _).
  exists before, record, line. split; [exact Hlog | exact Hcode].
Defined.

Lemma make_nws_request_failure_messages_witness :
  exists before record line,
    emitted (final (make_nws_request (rt := sample_runtime)
                      (quiet_world (Raise timeout_error))
                      (VStr "https://api.weather.gov/points/0.0,0.0")
                      initial_state))
    = (before ++ [(record, line)])%list
    /\ message record = "Timeout error occurred: timed out".
Proof.
  destruct (make_nws_request_failure_messages (rt := sample_runtime)
              (quiet_world (Raise timeout_error))
              "https://api.weather.gov/points/0.0,0.0" initial_state
              timeout_error eq_refl eq_refl)
    as (before & record & line & Hlog & _ & _ & Htimeout & _).
  exists before, record, line. split; [exact Hlog|].
  exact (proj1 (Htimeout eq_refl)).
Defined.

Lemma make_nws_request_records_by_threshold_witness :
  List.length
    (emitted (final (make_nws_request (rt := sample_runtime)
                       (debug_world (respond 200 (Raise decode_error)))
                       (VStr "https://api.weather.gov/points/0.0,0.0")
                       initial_state)))
  = 3%nat.
Proof.
  destruct (make_nws_request_records_by_threshold (rt := sample_runtime)
              (debug_world (respond 200 (Raise decode_error)))
              "https://api.weather.gov/points/0.0,0.0" initial_state DEBUG
              eq_refl)
    as (_ & Hdebug & _).
  destruct (Hdebug (Z.le_refl DEBUG)) as (_ & _ & _ & Hdecode).
  exact (Hdecode _ _ eq_refl eq_refl eq_refl).
Defined.

Lemma get_forecast_request_trace_witness :
  requests (final (get_forecast (rt := sample_runtime)
                     (sample_world no_env (forecast_upstream seven_periods))
                     (S754_zero false) (S754_zero false) initial_state))
  = [ "https://api.weather.gov/points/0.0,0.0";
      "https://api.weather.gov/gridpoints/SEW/1,2/forecast" ].
Proof.
  exact (proj1 (get_forecast_request_trace (rt := sample_runtime)
                  (sample_world no_env (forecast_upstream seven_periods))
                  (S754_zero false) (S754_zero false) initial_state)
           "https://api.weather.gov/gridpoints/SEW/1,2/forecast"
           eq_refl eq_refl).
Defined.

Lemma get_forecast_detail_absent_witness :
  returned (get_forecast (rt := sample_runtime)
              (sample_world no_env detail_times_out)
              (S754_zero false) (S754_zero false) initial_state)
  = Ret "Unable to fetch detailed forecast.".
Proof.
  exact (get_forecast_detail_absent (rt := sample_runtime)
           (sample_world no_env detail_times_out)
           (S754_zero false) (S754_zero false) initial_state VNone
           eq_refl eq_refl).
Defined.

Lemma get_forecast_few_periods_witness :
  returned (get_forecast (rt := sample_runtime)
              (sample_world no_env (forecast_upstream []))
              (S754_zero false) (S754_zero false) initial_state)
  = Ret EmptyString.
Proof.
  refine (proj2 (get_forecast_few_periods (rt := sample_runtime)
                   (sample_world no_env (forecast_upstream []))
                   (S754_zero false) (S754_zero false) initial_state
                   _ _ [] eq_refl eq_refl eq_refl eq_refl _) eq_refl).
  cbn. lia.
Defined.

Lemma get_alerts_falsy_features_witness :
  returned (get_alerts (rt := sample_runtime)
              (quiet_world (respond 200 (Ret (VDict [("features", VNone)]))))
              "CA" initial_state)
  = Ret "No active alerts for this state.".
Proof.
  exact (get_alerts_falsy_features (rt := sample_runtime)
           (quiet_world (respond 200 (Ret (VDict [("features", VNone)]))))
           "CA" initial_state _ VNone eq_refl eq_refl eq_refl).
Defined.

Lemma format_alert_succeeds_iff_witness :
  (exists text, format_alert (rt := sample_runtime) flood_feature = Ret text)
  /\ (exists e, format_alert (rt := sample_runtime) (VDict []) = Raise e
                /\ exn_class_of e = KeyError)
  /\ (exists e, format_alert (rt := sample_runtime) (VStr "feature")
                = Raise e
                /\ exn_class_of e = TypeError).
Proof.
  split; [|split].
  - apply (proj1 (format_alert_succeeds_iff (rt := sample_runtime)
                    flood_feature)).
    eexists _, _. split; reflexivity.
  - exact (proj1 (proj2 (format_alert_succeeds_iff (rt := sample_runtime)
                           (VDict [])))
             [] eq_refl eq_refl).
  - apply (proj2 (proj2 (proj2 (format_alert_succeeds_iff
                                  (rt := sample_runtime) (VStr "feature"))))).
    intros kv. discriminate.
Defined.

Lemma format_alert_null_instruction_witness :
  exists before,
    format_alert (rt := sample_runtime)
      (feature_of [("event", VStr "Flood Warning"); ("instruction", VNone)])
    = Ret (before ++ "Instructions: None" ++ nl).
Proof.
  exact (proj1 (format_alert_null_instruction (rt := sample_runtime)
                  [("event", VStr "Flood Warning"); ("instruction", VNone)])
           eq_refl).
Defined.

Lemma get_forecast_malformed_period_witness :
  returned (get_forecast (rt := sample_runtime)
              (sample_world no_env
                 (forecast_upstream [period 1; VDict [("name", VStr "Tonight")]]))
              (S754_zero false) (S754_zero false) initial_state)
  = Ret "An error occurred while fetching forecast.".
Proof.
  refine (get_forecast_malformed_period (rt := sample_runtime)
            (sample_world no_env
               (forecast_upstream [period 1; VDict [("name", VStr "Tonight")]]))
            (S754_zero false) (S754_zero false) initial_state
            _ _ _ [("name", VStr "Tonight")] "temperature"
            eq_refl eq_refl eq_refl eq_refl _ _ eq_refl).
  - right. left. reflexivity.
  - right. left. reflexivity.
Defined.

Lemma replies_depend_on_upstream_only_witness :
  returned (get_alerts (rt := sample_runtime)
              (quiet_world (respond 200 (Ret (alerts_payload [flood_feature]))))
              "CA" initial_state)
  = returned (get_alerts (rt := sample_runtime)
                (production_world
                   (respond 200 (Ret (alerts_payload [flood_feature]))))
                "CA" initial_state).
Proof.
  exact (proj1 (proj2 (replies_depend_on_upstream_only
                         (rt := sample_runtime)
                         (quiet_world
                            (respond 200 (Ret (alerts_payload [flood_feature]))))
                         (production_world
                            (respond 200 (Ret (alerts_payload [flood_feature]))))
                         initial_state initial_state
                         (fun _ _ => eq_refl) eq_refl))
           "CA").
Defined.

Lemma operations_stamp_correlation_id_witness :
  exists new,
    emitted (final (get_alerts (rt := sample_runtime)
                      (production_world (respond 200 (Ret (alerts_payload []))))
                      "CA" initial_state))
    = new
    /\ Forall (carries (rt := sample_runtime) "correlation_id" "id-0") new.
Proof.
  destruct (proj1 (operations_stamp_correlation_id (rt := sample_runtime)
                     (production_world (respond 200 (Ret (alerts_payload []))))
                     initial_state eq_refl) "CA")
    as (new & Hnew & Hall).
  exists new. split; [exact Hnew | exact Hall].
Defined.

Lemma make_nws_request_stamps_request_id_witness :
  exists new,
    emitted (final (make_nws_request (rt := sample_runtime)
                      (production_world (Raise timeout_error))
                      (VStr "https://api.weather.gov/points/0.0,0.0")
                      initial_state))
    = new
    /\ Forall (carries (rt := sample_runtime) "request_id" "id-0") new.
Proof.
  destruct (make_nws_request_stamps_request_id (rt := sample_runtime)
              (production_world (Raise timeout_error))
              (VStr "https://api.weather.gov/points/0.0,0.0")
              initial_state eq_refl)
    as (new & Hnew & Hall & _).
  exists new. split; [exact Hnew | exact Hall].
Defined.

(** * The first line of an operation *)

Section First_line.
Context {rt : Runtime}.
Variable w : World.
Local Arguments append : simpl never.

Ltac fetch_any :=
  match goal with
  | |- context [make_nws_request w ?u ?s] =>
      let Hext := fresh "Hext" in
      assert (Hext : extends w any_context s
                       (final (make_nws_request w u s)))
        by (apply make_nws_request_extends; [assumption | exact I]);
      rewrite (make_nws_request_run w u s);
      let st' := fresh "st" in
      generalize dependent (final (make_nws_request w u s));
      intros st' Hext; cbn
  end.

Ltac grow :=
  repeat first
    [ apply extends_refl; reflexivity
    | apply extends_write; [ assumption | exact I | ]
    | match goal with
      | |- extends _ _ _ (mkState _ _ _ _ (emitted ?X)) =>
          apply (extends_same _ _ _ X); [reflexivity|]
      end
    | match goal with
      | H : extends _ _ ?a ?b |- extends _ _ _ ?b =>
          apply (extends_trans _ _ _ a b); [|exact H]
      end
    | assumption ].

Ltac branch'' x := destruct x; cbn; try (grow; fail).

(** X20.  In production mode, with INFO records enabled, the first line
    [get_alerts] writes is its "Getting alerts" line.  It carries the
    correlation id the operation has just drawn, but the request id that
    was current before the operation began (the one left by an earlier
    fetch, or the default drawn when the module was loaded): a request id
    is only drawn inside the fetch that follows. *)
Theorem get_alerts_first_line (state : string) (st : State) :
  production w = true ->
  isEnabledFor w INFO = true ->
  exists first rest,
    emitted (final (get_alerts w state st))
    = (emitted st ++ first :: rest)%list
    /\ message (fst first) = "Getting alerts for state: " ++ state
    /\ carries "correlation_id" (uuid4 w (uuids_drawn st)) first
    /\ carries "request_id" (get_request_id w (context st)) first.
Proof.
  intros Hprod Hinfo.
  assert (Hgrow : exists X,
             extends w any_context X (final (get_alerts w state st))
             /\ X = write_record w INFO "INFO"
                      ("Getting alerts for state: " ++ state) None
                      [("correlation_id", uuid4 w (uuids_drawn st))]
                      "get_alerts" 130
                      (mkState
                         (mkContext (Some (uuid4 w (uuids_drawn st)))
                            (request_id (context st)) (user_id (context st)))
                         (S (uuids_drawn st)) (S (clock_reads st))
                         (requests st) (emitted st))).
  { eexists. split; [|reflexivity].
    unfold final, get_alerts. run.
    match goal with
    | |- context [make_nws_request w _ ?s] => set (X := s)
    end.
    assert (HX : X = X) by reflexivity. clearbody X.
    fetch_any.
    set (data := fetch_result _ _ _) in *. clearbody data.
    branch'' (truthy data).
    branch'' (contains "features" data). branch'' a.
    branch'' (getitem data "features"). branch'' (truthy a).
    branch'' (iterate a). branch'' (omap format_alert a0). }
  destruct Hgrow as (X & (rest & Hrest & _) & HX).
  rewrite Hrest, HX, write_record_emitted, Hinfo, <- List.app_assoc.
  eexists _, rest. split; [reflexivity|].
  cbn [fst snd made_record message].
  split; [reflexivity|].
  unfold carries, written_line. rewrite Hprod. cbn [snd].
  rewrite !JSONFormatter_format_loads.
  split; eexists; (split; [reflexivity|]); unfold log_record; cbn;
    reflexivity.
Qed.
End First_line.

Section Payload_shapes.
Context {rt : Runtime}.
Variable w : World.

(** X21.  Documents that are not objects: any falsy document (null, zero,
    false, an empty string, list or object) gives the "Unable to fetch"
    reply, while a truthy number or boolean gives "An error occurred while
    fetching alerts.", because the membership test on it raises. *)
Theorem get_alerts_other_documents (state : string) (st : State) :
  let data :=
    fetch_outcome (http_get w (List.length (requests st)) (alerts_url state)) in
  let reply := returned (get_alerts w state st) in
  (truthy data = false ->
   reply = Ret "Unable to fetch alerts or no alerts found.")
  /\ (truthy data = true ->
      (exists n, data = VInt n) \/ (exists b, data = VBool b)
      \/ (exists f, data = VFloat f) ->
      reply = Ret "An error occurred while fetching alerts.").
Proof.
  intros data reply. subst reply. rewrite get_alerts_returned.
  unfold fetch_result. fold data. clearbody data.
  unfold alerts_reply, alerts_body. split.
  - intros ->. reflexivity.
  - intros -> [[n ->] | [[b ->] | [f ->]]]; reflexivity.
Qed.

End Payload_shapes.

Lemma get_alerts_first_line_witness :
  exists first rest,
    emitted (final (get_alerts (rt := sample_runtime)
                      (production_world (Raise timeout_error)) "CA"
                      initial_state))
    = first :: rest
    /\ carries (rt := sample_runtime) "correlation_id" "id-0" first
    /\ carries (rt := sample_runtime) "request_id" "id-load-1" first.
Proof.
  destruct (get_alerts_first_line (rt := sample_runtime)
              (production_world (Raise timeout_error)) "CA" initial_state
              eq_refl eq_refl)
    as (first & rest & Hlog & _ & Hcorr & Hreq).
  exists first, rest. split; [exact Hlog|]. split; [exact Hcorr | exact Hreq].
Defined.

Lemma get_alerts_other_documents_witness :
  returned (get_alerts (rt := sample_runtime)
              (quiet_world (respond 200 (Ret (VInt 5)))) "CA" initial_state)
  = Ret "An error occurred while fetching alerts."
  /\ returned (get_alerts (rt := sample_runtime)
                 (quiet_world (respond 200 (Ret (VList [])))) "CA"
                 initial_state)
     = Ret "Unable to fetch alerts or no alerts found.".
Proof.
  split.
  - apply (proj2 (get_alerts_other_documents (rt := sample_runtime)
                    (quiet_world (respond 200 (Ret (VInt 5)))) "CA"
                    initial_state)).
    + reflexivity.
    + left. exists 5. reflexivity.
  - apply (proj1 (get_alerts_other_documents (rt := sample_runtime)
                    (quiet_world (respond 200 (Ret (VList [])))) "CA"
                    initial_state)).
    reflexivity.
Defined.
